(** * mcp-pinecone: the tool and resource handlers, embedded and verified

    A shallow embedding of [src/mcp_pinecone/tools.py] (the five tools
    registered by [register_tools]) and of the vector resource of
    [src/mcp_pinecone/server.py].

    The Pinecone client ([pinecone.py]) and the chunker ([chunking.py]) are
    collaborators of the handlers: they are taken as parameters, as
    world-passing functions that either return or raise.  Every call a
    handler makes to them, and every log record it emits, is appended to a
    trace, so that statements such as "upsert is never invoked" are
    statements about that trace. *)

From stdpp Require Import base option list strings gmap fin_maps pretty.
From Stdlib Require Import ZArith Ascii String.

Local Open Scope string_scope.
Local Open Scope list_scope.
Local Open Scope Z_scope.

(** ** Python values *)

(** A [dict] with [str] keys, in insertion order (what [items()] iterates). *)
Definition dict (A : Type) : Type := list (string * A).

Fixpoint dict_get {A : Type} (k : string) (d : dict A) : option A :=
  match d with
  | [] => None
  | (k', v) :: d' => if String.eqb k k' then Some v else dict_get k d'
  end.

(** [k in d] *)
Definition dict_has {A : Type} (k : string) (d : dict A) : bool :=
  match dict_get k d with Some _ => true | None => false end.

(** Metadata values as Pinecone stores them: a string, a number, a boolean
    or a list of strings (floating-point numbers are left out). *)
Inductive value : Type :=
| VStr (s : string)
| VInt (z : Z)
| VBool (b : bool)
| VList (l : list string).

Definition metadata_t : Type := dict value.

(** [type(v).__name__] *)
Definition type_name (v : value) : string :=
  match v with
  | VStr _ => "str"
  | VInt _ => "int"
  | VBool _ => "bool"
  | VList _ => "list"
  end.

Definition nl : string := String (ascii_of_nat 10) EmptyString.

(** [sep.join(parts)] *)
Definition join (sep : string) (parts : list string) : string :=
  String.concat sep parts.

(** An instance of [Exception]: its class name and [str(e)]. *)
Inductive exn : Type := Exn (cls msg : string).

Definition str_exn (e : exn) : string := let 'Exn _ msg := e in msg.

(** What a Python call does: it returns a value or raises. *)
Inductive outcome (A : Type) : Type :=
| Returned (a : A)
| Raised (e : exn).
Arguments Returned {A} a.
Arguments Raised {A} e.

(** ** What the handlers do not define

    The types and functions of the Python runtime and of the external
    services that the handlers only pass around. *)
Class Externals : Type := {
  (** the state of everything outside the handler: the embedding service,
      the index, the chunker *)
  World : Type;
  (** an embedding vector *)
  Embedding : Type;
  (** a similarity score (a float) *)
  Score : Type;
  (** what [stats()] and [list_records()] return *)
  Json : Type;
  (** [f"{score:.3f}"] *)
  format_3f : Score -> string;
  (** [s.strip()] *)
  py_strip : string -> string;
  (** [repr(s)] for a [str] *)
  py_repr : string -> string;
  (** [json.dumps(x)]: raises [TypeError] on what it cannot serialise *)
  json_dumps : Json -> outcome string;
  (** [json.dumps({"error": msg}, indent=2)] *)
  json_dumps_error : string -> string
}.

(** [str(v)], which is also what an f-string field [{v}] renders. *)
Definition py_str `{Externals} (v : value) : string :=
  match v with
  | VStr s => s
  | VInt z => pretty z
  | VBool true => "True"
  | VBool false => "False"
  | VList l => "[" +:+ join ", " (map py_repr l) +:+ "]"
  end.

(** ** Search filters (tools.py, lines 39-49) *)

(** The value stored under a key of the [filters] dict. *)
Inductive filter_value : Type :=
| FValue (v : string)             (** [filters[k] = v] *)
| FIn (vs : list string)          (** [filters[k] = {"$in": vs}] *)
| FRange (gte lte : string).      (** [filters[k] = {"$gte": gte, "$lte": lte}] *)

(** Truthiness of an [Optional[str]]. *)
Definition truthy_str (o : option string) : bool :=
  match o with
  | Some s => negb (String.eqb s EmptyString)
  | None => false
  end.

(** Truthiness of an [Optional[List[str]]]. *)
Definition truthy_list {A : Type} (o : option (list A)) : bool :=
  match o with
  | Some (_ :: _) => true
  | _ => false
  end.

(** Truthiness of an [Optional[Dict[str, str]]]. *)
Definition truthy_dict (o : option (gmap string string)) : bool :=
  match o with
  | Some d => negb (bool_decide (d = ∅))
  | None => false
  end.

Definition build_filters (category : option string)
    (tags : option (list string))
    (date_range : option (gmap string string)) : gmap string filter_value :=
  let filters : gmap string filter_value := ∅ in
  let filters :=
    match category with
    | Some c => if truthy_str category then <["category" := FValue c]> filters else filters
    | None => filters
    end in
  let filters :=
    match tags with
    | Some ts => if truthy_list tags then <["tags" := FIn ts]> filters else filters
    | None => filters
    end in
  match date_range with
  | Some dr =>
      if truthy_dict date_range then
        match dr !! "start", dr !! "end" with
        | Some s, Some e => <["date" := FRange s e]> filters
        | _, _ => filters
        end
      else filters
  | None => filters
  end.

(** ** Data exchanged with the client and the chunker *)

(** A chunk as [chunker.chunk_document] returns it. *)
Record Chunk : Type := {
  chunk_id : string;
  chunk_content : string;
  chunk_metadata : metadata_t
}.

Record PineconeRecord `{Externals} : Type := {
  record_id : string;
  record_embedding : Embedding;
  record_text : string;
  record_metadata : metadata_t
}.

(** One entry of [results["matches"]]; [match_metadata] is [None] when the
    entry has no ["metadata"] key. *)
Record search_match `{Externals} : Type := {
  match_score : Score;
  match_id : string;
  match_metadata : option metadata_t
}.

(** What [search_records] returns; [matches] is [None] when the result has
    no ["matches"] key. *)
Record search_results `{Externals} : Type := {
  matches : option (list search_match)
}.

(** A fetched vector as [read_document_tool] reads it: an object whose
    [metadata] attribute may be missing or [None]. *)
Record vector : Type := {
  vector_metadata : option metadata_t
}.

(** A fetched record as [get_vector_resource] reads it: a dict whose ["id"]
    and ["metadata"] keys may be missing. *)
Record vector_data : Type := {
  vd_id : option string;
  vd_metadata : option metadata_t
}.

(** What [fetch_records] returns.  The tool reads its [vectors] attribute,
    the resource reads its ["records"] item ([None] when there is no such
    key); both views are kept. *)
Record fetch_response : Type := {
  vectors : dict vector;
  records : option (list vector_data)
}.

(** The methods of [PineconeClient] the handlers call. *)
Record PineconeClient `{Externals} : Type := {
  search_records :
    string -> Z -> gmap string filter_value -> bool -> option string ->
    World -> outcome search_results * World;
  stats : World -> outcome Json * World;
  fetch_records :
    list string -> option string -> World -> outcome fetch_response * World;
  generate_embeddings : string -> World -> outcome Embedding * World;
  upsert_records :
    list PineconeRecord -> option string -> World -> outcome unit * World;
  list_records : option string -> World -> outcome Json * World
}.

(** [create_chunker(chunk_type="smart").chunk_document] *)
Definition Chunker `{Externals} : Type :=
  string -> string -> metadata_t -> World -> outcome (list Chunk) * World.

(** ** Traces *)

(** What a handler does that can be seen from outside: its calls to the
    collaborators, each with its arguments and its outcome, and its log
    records. *)
Inductive event `{Externals} : Type :=
| CallSearch (query : string) (top_k : Z) (filter : gmap string filter_value)
    (include_metadata : bool) (namespace : option string)
    (r : outcome search_results)
| CallStats (r : outcome Json)
| CallFetch (ids : list string) (namespace : option string)
    (r : outcome fetch_response)
| CallChunk (document_id text : string) (md : metadata_t)
    (r : outcome (list Chunk))
| CallEmbed (text : string) (r : outcome Embedding)
| CallUpsert (batch : list PineconeRecord) (namespace : option string)
    (r : outcome unit)
| CallList (namespace : option string) (r : outcome Json)
| CallNewClient (failed : option exn)
| LogWarningChunk (msg : string) (c : Chunk)
| LogError (msg : string).

Record state `{Externals} : Type := {
  world : World;
  trace : list event
}.

(** ** The handler monad: state passing with exceptions *)

Definition M `{Externals} (A : Type) : Type := state -> outcome A * state.

Definition ret `{Externals} {A : Type} (a : A) : M A :=
  fun st => (Returned a, st).

Definition raise `{Externals} {A : Type} (e : exn) : M A :=
  fun st => (Raised e, st).

Definition bind `{Externals} {A B : Type} (m : M A) (k : A -> M B) : M B :=
  fun st =>
    match m st with
    | (Returned a, st') => k a st'
    | (Raised e, st') => (Raised e, st')
    end.

(** [try: body / except Exception as e: handler(e)] *)
Definition try_except `{Externals} {A : Type} (body : M A) (handler : exn -> M A) : M A :=
  fun st =>
    match body st with
    | (Returned a, st') => (Returned a, st')
    | (Raised e, st') => handler e st'
    end.

Declare Scope handler_scope.
Delimit Scope handler_scope with handler.
Notation "x <- m ;; k" := (bind m (fun x => k))
  (at level 100, m at next level, right associativity) : handler_scope.
Notation "m ;;; k" := (bind m (fun _ => k))
  (at level 100, right associativity) : handler_scope.

(** Append an event to the trace. *)
Definition emit `{Externals} (ev : event) : M unit :=
  fun st => (Returned tt, {| world := world st; trace := trace st ++ [ev] |}).

(** Call a collaborator and record the call with its outcome. *)
Definition call `{Externals} {A : Type}
    (f : World -> outcome A * World) (ev : outcome A -> event) : M A :=
  fun st =>
    let '(r, w) := f (world st) in
    (r, {| world := w; trace := trace st ++ [ev r] |}).

(** Lift an outcome computed without touching the world. *)
Definition lift `{Externals} {A : Type} (r : outcome A) : M A :=
  fun st => (r, st).

(** Run a handler from a world, with an empty trace. *)
Definition run `{Externals} {A : Type} (m : M A) (w : World) : outcome A * state :=
  m {| world := w; trace := [] |}.

(** ** The tools (tools.py) *)

(** The dict [{"type": ..., "text": ...}] every tool returns. *)
Record tool_result : Type := {
  result_type : string;
  result_text : string
}.

Definition text_content (s : string) : tool_result :=
  {| result_type := "text"; result_text := s |}.

(** [x.strip()] where [x = metadata.get('text', '')]: a value that is not a
    [str] has no [strip]. *)
Definition strip_text `{Externals} (md : metadata_t) : outcome string :=
  match dict_get "text" md with
  | None => Returned (py_strip EmptyString)
  | Some (VStr s) => Returned (py_strip s)
  | Some v =>
      Raised (Exn "AttributeError"
                ("'" +:+ type_name v +:+ "' object has no attribute 'strip'"))
  end.

(** The loop of lines 63-67: [i] is the rank of the first match of [ms],
    [formatted_text] what has been rendered so far. *)
Fixpoint format_matches `{Externals} (i : nat) (ms : list search_match)
    (formatted_text : string) : outcome string :=
  match ms with
  | [] => Returned formatted_text
  | m :: ms' =>
      let metadata := default [] (match_metadata m) in
      let formatted_text :=
        formatted_text +:+ "Result " +:+ pretty i +:+ " | Similarity: "
          +:+ format_3f (match_score m) +:+ " | Document ID: "
          +:+ match_id m +:+ nl in
      match strip_text metadata with
      | Returned t =>
          let formatted_text := formatted_text +:+ t +:+ nl in
          let formatted_text := formatted_text +:+ "----------" +:+ nl +:+ nl in
          format_matches (S i) ms' formatted_text
      | Raised e => Raised e
      end
  end.

(** The [except Exception as e] clause shared by the five tools: log, then
    return the error as text. *)
Definition report_error `{Externals} (what : string) (e : exn) : M tool_result :=
  (emit (LogError (what +:+ str_exn e)) ;;;
   ret (text_content ("Error: " +:+ str_exn e)))%handler.

Section Tools.
Context `{Externals}.
(** [ctx.request_context.lifespan_context.pinecone] *)
Variable pinecone_client : PineconeClient.
(** [create_chunker(chunk_type="smart")] *)
Variable chunker : Chunker.

Local Open Scope handler_scope.

(** [top_k] defaults to 10 and the optional arguments to [None] when the
    caller leaves them out. *)
Definition semantic_search_tool (query : string) (top_k : Z)
    (namespace : option string) (category : option string)
    (tags : option (list string))
    (date_range : option (gmap string string)) : M tool_result :=
  try_except
    (let filters := build_filters category tags date_range in
     results <- call (search_records pinecone_client query top_k filters true namespace)
                     (CallSearch query top_k filters true namespace) ;;
     let matches := default [] (matches results) in
     formatted_text <- lift (format_matches 1%nat matches
                               ("Retrieved Contexts:" +:+ nl +:+ nl)) ;;
     ret (text_content formatted_text))
    (report_error "Error in semantic search: ").

Definition pinecone_stats_tool : M tool_result :=
  try_except
    (stats <- call (stats pinecone_client) CallStats ;;
     s <- lift (json_dumps stats) ;;
     ret (text_content s))
    (report_error "Error getting stats: ").

(** The lines [f"{key}: {value}"] for [metadata.items()]. *)
Definition metadata_lines (metadata : metadata_t) : list string :=
  map (fun kv => fst kv +:+ ": " +:+ py_str (snd kv)) metadata.

Definition read_document_tool (document_id : string)
    (namespace : option string) : M tool_result :=
  try_except
    (record <- call (fetch_records pinecone_client [document_id] namespace)
                    (CallFetch [document_id] namespace) ;;
     match dict_get document_id (vectors record) with
     | None => ret (text_content ("Document " +:+ document_id +:+ " not found"))
     | Some vector =>
         let metadata := vector_metadata vector in
         let formatted_content := ["Document ID: " +:+ document_id; EmptyString] in
         let formatted_content :=
           match metadata with
           | Some ((_ :: _) as md) =>
               formatted_content ++ ["Metadata:"] ++ metadata_lines md
           | _ => formatted_content
           end in
         ret (text_content (join nl formatted_content))
     end)
    (report_error "Error reading document: ").

(** The loop of lines 134-150: [embedded_chunks] is what has been
    embedded so far. *)
Fixpoint embed_chunks (chunks : list Chunk)
    (embedded_chunks : list PineconeRecord) : M (list PineconeRecord) :=
  match chunks with
  | [] => ret embedded_chunks
  | chunk :: chunks' =>
      let content := chunk_content chunk in
      let chunk_id := chunk_id chunk in
      let chunk_metadata := chunk_metadata chunk in
      if String.eqb content EmptyString || String.eqb chunk_id EmptyString then
        emit (LogWarningChunk "Skipping invalid chunk: " chunk) ;;;
        embed_chunks chunks' embedded_chunks
      else
        embedding <- call (generate_embeddings pinecone_client content)
                          (CallEmbed content) ;;
        let record := {| record_id := chunk_id;
                         record_embedding := embedding;
                         record_text := content;
                         record_metadata := chunk_metadata |} in
        embed_chunks chunks' (embedded_chunks ++ [record])
  end.

Definition process_document_tool (document_id text : string)
    (metadata : metadata_t) (namespace : option string) : M tool_result :=
  try_except
    (chunks <- call (chunker document_id text metadata)
                    (CallChunk document_id text metadata) ;;
     embedded_chunks <- embed_chunks chunks [] ;;
     match embedded_chunks with
     | [] => ret (text_content "Error: No embedded chunks found")
     | _ :: _ =>
         call (upsert_records pinecone_client embedded_chunks namespace)
              (CallUpsert embedded_chunks namespace) ;;;
         ret (text_content
                ("Successfully processed document. The document ID is "
                   +:+ document_id))
     end)
    (report_error "Error processing document: ").

Definition list_documents_tool (namespace : string) : M tool_result :=
  try_except
    (results <- call (list_records pinecone_client (Some namespace))
                     (CallList (Some namespace)) ;;
     s <- lift (json_dumps results) ;;
     ret (text_content s))
    (report_error "Error listing documents: ").

End Tools.

(** ** The vector resource (server.py) *)

(** [f"{vector_data.get('id')}"]: a missing id renders as [None]. *)
Definition id_text (vector_data : vector_data) : string :=
  match vd_id vector_data with
  | Some i => i
  | None => "None"
  end.

(** [key not in ["title", "text", "content_type"]] *)
Definition plain_key (key : string) : bool :=
  negb (String.eqb key "title" || String.eqb key "text"
        || String.eqb key "content_type").

(** The loop [for key, value in metadata.items(): if key not in [...]]. *)
Definition field_lines `{Externals} (metadata : metadata_t) : list string :=
  map (fun kv => fst kv +:+ ": " +:+ py_str (snd kv))
      (List.filter (fun kv => plain_key (fst kv)) metadata).

(** [nl.join(output)] after [output.append(metadata["text"])]: [join]
    raises [TypeError] on an item that is not a [str]. *)
Definition join_with_text (output : list string) (metadata : metadata_t) : outcome string :=
  match dict_get "text" metadata with
  | None => Returned (join nl output)
  | Some (VStr s) => Returned (join nl (output ++ [s]))
  | Some v =>
      Raised (Exn "TypeError"
                ("sequence item " +:+ pretty (List.length output)
                   +:+ ": expected str instance, " +:+ type_name v +:+ " found"))
  end.

(** server.py, lines 118-135 *)
Definition format_text_content `{Externals} (vector_data : vector_data) : outcome string :=
  let metadata := default [] (vd_metadata vector_data) in
  let output : list string := [] in
  let output :=
    match dict_get "title" metadata with
    | Some title => output ++ ["Title: " +:+ py_str title]
    | None => output
    end in
  let output := output ++ ["ID: " +:+ id_text vector_data] in
  let output := output ++ field_lines metadata in
  let output := output ++ [EmptyString] in
  join_with_text output metadata.

Section Resources.
Context `{Externals}.
(** [PineconeClient()] *)
Variable new_client : World -> outcome PineconeClient * World.

Local Open Scope handler_scope.

Definition construct_client : M PineconeClient :=
  fun st =>
    let '(r, w) := new_client (world st) in
    let failed := match r with Returned _ => None | Raised e => Some e end in
    (r, {| world := w; trace := trace st ++ [CallNewClient failed] |}).

(** server.py, lines 54-84; the resource fetches from the default
    namespace. *)
Definition get_vector_resource (vector_id : string) : M string :=
  try_except
    (pinecone_client <- construct_client ;;
     record <- call (fetch_records pinecone_client [vector_id] None)
                    (CallFetch [vector_id] None) ;;
     match records record with
     | None | Some [] =>
         ret (json_dumps_error ("Vector not found: " +:+ vector_id))
     | Some (vector_data :: _) =>
         let metadata := default [] (vd_metadata vector_data) in
         let output : list string := [] in
         let output :=
           match dict_get "title" metadata with
           | Some title => output ++ ["Title: " +:+ py_str title]
           | None => output
           end in
         let output := output ++ ["ID: " +:+ id_text vector_data] in
         let output := output ++ field_lines metadata in
         let output := output ++ [EmptyString] in
         lift (join_with_text output metadata)
     end)
    (fun e => ret (json_dumps_error (str_exn e))).

End Resources.

(** ** Dispatch by tool name *)

(** A call of one of the tools of [ToolName], with its arguments. *)
Inductive tool_call : Type :=
| SEMANTIC_SEARCH (query : string) (top_k : Z) (namespace : option string)
    (category : option string) (tags : option (list string))
    (date_range : option (gmap string string))
| READ_DOCUMENT (document_id : string) (namespace : option string)
| PROCESS_DOCUMENT (document_id text : string) (metadata : metadata_t)
    (namespace : option string)
| LIST_DOCUMENTS (namespace : string)
| PINECONE_STATS.

Definition invoke `{Externals} (pinecone_client : PineconeClient)
    (chunker : Chunker) (c : tool_call) : M tool_result :=
  match c with
  | SEMANTIC_SEARCH query top_k namespace category tags date_range =>
      semantic_search_tool pinecone_client query top_k namespace category tags date_range
  | READ_DOCUMENT document_id namespace =>
      read_document_tool pinecone_client document_id namespace
  | PROCESS_DOCUMENT document_id text metadata namespace =>
      process_document_tool pinecone_client chunker document_id text metadata namespace
  | LIST_DOCUMENTS namespace => list_documents_tool pinecone_client namespace
  | PINECONE_STATS => pinecone_stats_tool pinecone_client
  end.

(** ** Reading a trace *)

(** The queries sent to the store, in order. *)
Definition search_calls `{Externals} (tr : list event)
    : list (string * Z * gmap string filter_value * bool * option string) :=
  omap (fun ev => match ev with
                  | CallSearch q k f im ns _ => Some (q, k, f, im, ns)
                  | _ => None
                  end) tr.

(** The texts sent to the embedding client, each with what came back. *)
Definition embed_calls `{Externals} (tr : list event)
    : list (string * outcome Embedding) :=
  omap (fun ev => match ev with
                  | CallEmbed t r => Some (t, r)
                  | _ => None
                  end) tr.

(** The embeddings the embedding client returned, in order. *)
Definition embeddings `{Externals} (tr : list event) : list Embedding :=
  omap (fun ev => match ev with
                  | CallEmbed _ (Returned x) => Some x
                  | _ => None
                  end) tr.

(** The batches passed to [upsert_records], each with its namespace. *)
Definition upsert_calls `{Externals} (tr : list event)
    : list (list PineconeRecord * option string) :=
  omap (fun ev => match ev with
                  | CallUpsert batch ns _ => Some (batch, ns)
                  | _ => None
                  end) tr.

(** The chunks a warning was logged for. *)
Definition warned_chunks `{Externals} (tr : list event) : list Chunk :=
  omap (fun ev => match ev with
                  | LogWarningChunk _ c => Some c
                  | _ => None
                  end) tr.

(** The exception a call to a collaborator ended with, if it raised. *)
Definition call_raised `{Externals} (ev : event) : option exn :=
  match ev with
  | CallSearch _ _ _ _ _ (Raised e) | CallStats (Raised e)
  | CallFetch _ _ (Raised e) | CallChunk _ _ _ (Raised e)
  | CallEmbed _ (Raised e) | CallUpsert _ _ (Raised e)
  | CallList _ (Raised e) => Some e
  | CallNewClient failed => failed
  | _ => None
  end.

(** No call to the embedding client raised. *)
Definition embeddings_succeeded `{Externals} (tr : list event) : Prop :=
  Forall (fun c => exists x, c.2 = Returned x) (embed_calls tr).





(** ** Chunks and records *)

(** The test of line 139, negated: the chunk is kept. *)
Definition valid_chunk (c : Chunk) : bool :=
  negb (String.eqb (chunk_content c) EmptyString
        || String.eqb (chunk_id c) EmptyString).

Definition surviving (chunks : list Chunk) : list Chunk :=
  List.filter valid_chunk chunks.

Definition skipped (chunks : list Chunk) : list Chunk :=
  List.filter (fun c => negb (valid_chunk c)) chunks.

(** The record of lines 144-149 for a chunk and its embedding. *)
Definition make_record `{Externals} (c : Chunk) (x : Embedding) : PineconeRecord :=
  {| record_id := chunk_id c;
     record_embedding := x;
     record_text := chunk_content c;
     record_metadata := chunk_metadata c |}.

(** The runs of the embedding loop: from [chunks] and the records
    accumulated so far, the events it emits and how it ends. *)
Inductive embed_run `{Externals}
    : list Chunk -> list PineconeRecord -> list event ->
      outcome (list PineconeRecord) -> Prop :=
| embed_run_done acc :
    embed_run [] acc [] (Returned acc)
| embed_run_skip c cs acc evs r :
    valid_chunk c = false ->
    embed_run cs acc evs r ->
    embed_run (c :: cs) acc (LogWarningChunk "Skipping invalid chunk: " c :: evs) r
| embed_run_embedded c cs acc x evs r :
    valid_chunk c = true ->
    embed_run cs (acc ++ [make_record c x]) evs r ->
    embed_run (c :: cs) acc (CallEmbed (chunk_content c) (Returned x) :: evs) r
| embed_run_failed c cs acc e :
    valid_chunk c = true ->
    embed_run (c :: cs) acc [CallEmbed (chunk_content c) (Raised e)] (Raised e).

(** How an ingestion ends once the embedding loop has ended with [r]: the
    result it returns and the events that follow the loop. *)
Inductive ingest_end `{Externals} (document_id : string)
    (namespace : option string)
    : outcome (list PineconeRecord) -> tool_result -> list event -> Prop :=
| ingest_end_embedding_failed e :
    ingest_end document_id namespace (Raised e)
      (text_content ("Error: " +:+ str_exn e))
      [LogError ("Error processing document: " +:+ str_exn e)]
| ingest_end_nothing_embedded :
    ingest_end document_id namespace (Returned [])
      (text_content "Error: No embedded chunks found") []
| ingest_end_upserted batch u :
    batch <> [] ->
    ingest_end document_id namespace (Returned batch)
      (text_content ("Successfully processed document. The document ID is "
                       +:+ document_id))
      [CallUpsert batch namespace (Returned u)]
| ingest_end_upsert_failed batch e :
    batch <> [] ->
    ingest_end document_id namespace (Returned batch)
      (text_content ("Error: " +:+ str_exn e))
      [CallUpsert batch namespace (Raised e);
       LogError ("Error processing document: " +:+ str_exn e)].

(** ** What a filter means to the store

    The index evaluates a filter, the handlers only build it.  The three
    shapes the handlers build are read as Pinecone reads them: a bare
    value is an equality on a string field, [$in] holds when an element of
    a list field is among the given values, [$gte] and [$lte] are inclusive
    bounds, and the keys of a filter are combined by AND.  [leb] is the
    store's order on the values of a date field. *)
Section FilterMeaning.
Variable leb : string -> string -> bool.

Definition field_holds (fv : filter_value) (field : option value) : bool :=
  match fv, field with
  | FValue v, Some (VStr s) => String.eqb s v
  | FIn vs, Some (VList l) => existsb (fun t => existsb (String.eqb t) vs) l
  | FRange gte lte, Some (VStr d) => leb gte d && leb d lte
  | _, _ => false
  end.

Definition filter_matches (filters : gmap string filter_value)
    (md : metadata_t) : Prop :=
  map_Forall (fun k fv => field_holds fv (dict_get k md) = true) filters.

(** The record's category is [c]. *)
Definition category_equals (c : string) (md : metadata_t) : Prop :=
  dict_get "category" md = Some (VStr c).

(** The record's tag list and [ts] have a tag in common. *)
Definition tags_intersect (ts : list string) (md : metadata_t) : Prop :=
  exists l t, dict_get "tags" md = Some (VList l) /\ In t l /\ In t ts.

(** The record's date lies between [s] and [e], bounds included. *)
Definition date_within (s e : string) (md : metadata_t) : Prop :=
  exists d, dict_get "date" md = Some (VStr d) /\ leb s d = true /\ leb d e = true.
End FilterMeaning.

(** The entries a filter can have, by parameter. *)
Definition category_entry (category : option string) : option filter_value :=
  match category with
  | Some c => if String.eqb c EmptyString then None else Some (FValue c)
  | None => None
  end.

Definition tags_entry (tags : option (list string)) : option filter_value :=
  match tags with
  | Some (t :: ts) => Some (FIn (t :: ts))
  | _ => None
  end.

Definition date_entry (date_range : option (gmap string string)) : option filter_value :=
  match date_range with
  | Some dr =>
      match dr !! "start", dr !! "end" with
      | Some s, Some e => Some (FRange s e)
      | _, _ => None
      end
  | None => None
  end.

(** ** An instance to run the handlers on

    Scores are whole numbers, [stats] and [list_records] return text that
    is already JSON, and [strip] and [repr] are given for strings without
    blanks at their ends and without quotes or escapes. *)
Definition quote : string := String (ascii_of_nat 34) EmptyString.

Definition demo : Externals := {|
  World := unit;
  Embedding := list Z;
  Score := Z;
  Json := string;
  format_3f := fun s => pretty s +:+ ".000";
  py_strip := fun s => s;
  py_repr := fun s => "'" +:+ s +:+ "'";
  json_dumps := fun j => Returned j;
  json_dumps_error := fun msg =>
    "{" +:+ nl +:+ "  " +:+ quote +:+ "error" +:+ quote +:+ ": "
      +:+ quote +:+ msg +:+ quote +:+ nl +:+ "}"
|}.

(** A client over an index that holds [stored] (seen through both views of
    a fetch) and that never fails. *)
Definition demo_client (stored : fetch_response) : @PineconeClient demo :=
  @Build_PineconeClient demo
    (fun _ _ _ _ _ w => (Returned (@Build_search_results demo (Some [])), w))
    (fun w => (Returned "{}", w))
    (fun _ _ w => (Returned stored, w))
    (fun _ w => (Returned [0], w))
    (fun _ _ w => (Returned tt, w))
    (fun _ w => (Returned "{}", w)).

Definition empty_index : fetch_response := {| vectors := []; records := None |}.

(** A chunker that returns [chunks] whatever the document. *)
Definition demo_chunker (chunks : list Chunk) : @Chunker demo :=
  fun _ _ _ w => (Returned chunks, w).

(** Three chunks of a document [doc1]: one without content, two with. *)
Definition blank_chunk : Chunk :=
  {| chunk_id := "doc1-0"; chunk_content := EmptyString; chunk_metadata := [] |}.

Definition alpha_chunk : Chunk :=
  {| chunk_id := "doc1-1"; chunk_content := "alpha";
     chunk_metadata := [("index", VInt 1)] |}.

Definition beta_chunk : Chunk :=
  {| chunk_id := "doc1-2"; chunk_content := "beta";
     chunk_metadata := [("index", VInt 2)] |}.

(** A record stored under [doc1], as a fetch shows it through both views,
    and the constructor of a client over the index that holds it. *)
Definition doc1_metadata : metadata_t :=
  [("title", VStr "Notes"); ("category", VStr "news"); ("text", VStr "hello")].

Definition doc1_index : fetch_response :=
  {| vectors := [("doc1", {| vector_metadata := Some doc1_metadata |})];
     records := Some [{| vd_id := Some "doc1"; vd_metadata := Some doc1_metadata |}] |}.

Definition demo_new_client (stored : fetch_response)
    : @World demo -> outcome (@PineconeClient demo) * @World demo :=
  fun w => (Returned (demo_client stored), w).

(** A client whose embedding service is down. *)
Definition service_down : exn :=
  Exn "PineconeException" "embedding service unavailable".

Definition failing_client : @PineconeClient demo :=
  @Build_PineconeClient demo
    (fun _ _ _ _ _ w => (Raised service_down, w))
    (fun w => (Returned "{}", w))
    (fun _ _ w => (Returned empty_index, w))
    (fun _ w => (Raised service_down, w))
    (fun _ _ w => (Returned tt, w))
    (fun _ w => (Returned "{}", w)).

(** ** The rest of tools.py *)

(** What the loop of lines 63-67 appends for the match of rank [i] whose
    stripped text is [t]. *)
Definition match_block `{Externals} (i : nat) (m : search_match) (t : string) : string :=
  "Result " +:+ pretty i +:+ " | Similarity: " +:+ format_3f (match_score m)
    +:+ " | Document ID: " +:+ match_id m +:+ nl
    +:+ t +:+ nl +:+ "----------" +:+ nl +:+ nl.

(** The stored text of a match as the loop reads it, when it can be
    stripped: a string, or nothing. *)
Definition match_text `{Externals} (m : search_match) : option string :=
  match dict_get "text" (default [] (match_metadata m)) with
  | None => Some EmptyString
  | Some (VStr s) => Some s
  | Some _ => None
  end.

(** The blocks of the matches [ms], ranked from [i], one after the
    other. *)
Fixpoint match_blocks `{Externals} (i : nat) (ms : list search_match) : string :=
  match ms with
  | [] => EmptyString
  | m :: ms' =>
      match_block i m (py_strip (default EmptyString (match_text m)))
        +:+ match_blocks (S i) ms'
  end.

(** The calls to the client and to the chunker, among the events. *)
Definition is_call `{Externals} (ev : event) : bool :=
  match ev with
  | LogWarningChunk _ _ | LogError _ => false
  | _ => true
  end.

(** What a reading tool leaves in the trace: one call, nothing embedded,
    nothing upserted. *)
Definition one_call_no_write `{Externals} (m : M tool_result) (w : World) : Prop :=
  let tr := trace (run m w).2 in
  List.length (List.filter is_call tr) = 1%nat
  /\ embed_calls tr = [] /\ upsert_calls tr = [].

(** The tools that only read the index. *)
Definition reads_only (c : tool_call) : bool :=
  match c with
  | PROCESS_DOCUMENT _ _ _ _ => false
  | _ => true
  end.

(** tools.py, lines 185-194: no [try] around the call. *)
Definition upsert_documents `{Externals} (records : list PineconeRecord)
    (pinecone_client : PineconeClient) (namespace : option string) : M unit :=
  call (upsert_records pinecone_client records namespace)
       (CallUpsert records namespace).

(** ** The rest of server.py: the listing of vectors *)

(** A Python [str] is held as the bytes of its UTF-8 encoding.  A byte
    [10xxxxxx] continues a character, every other byte starts one. *)
Definition is_continuation (b : ascii) : bool :=
  match b with
  | Ascii _ _ _ _ _ _ b6 b7 => b7 && negb b6
  end.


(** [s[:n]]: the first [n] characters of [s], each with all its bytes. *)
Fixpoint py_take (n : nat) (s : string) : string :=
  match s with
  | EmptyString => EmptyString
  | String b s' =>
      if is_continuation b then String b (py_take n s')
      else match n with
           | O => EmptyString
           | S n' => String b (py_take n' s')
           end
  end.

(** Truthiness of a metadata value. *)
Definition py_truthy (v : value) : bool :=
  match v with
  | VStr s => negb (String.eqb s EmptyString)
  | VInt z => negb (Z.eqb z 0)
  | VBool b => b
  | VList l => match l with [] => false | _ :: _ => true end
  end.

(** One entry of [records["vectors"]]; [listed_metadata] is [None] when
    the entry has no ["metadata"] key or has [None] there. *)
Record listed_record : Type := {
  listed_id : string;
  listed_metadata : option metadata_t
}.

(** One dict of [resources]. *)
Record resource_summary : Type := {
  uri : string;
  name : value;
  description : string;
  summary_metadata : metadata_t;
  mimeType : value
}.

(** [metadata.get("text", "")[:100] + "..." if metadata.get("text") else ""]:
    the conditional takes the whole sum, a value that is not a [str] cannot
    be sliced or added to. *)
Definition describe (metadata : metadata_t) : outcome string :=
  match dict_get "text" metadata with
  | None => Returned EmptyString
  | Some v =>
      if py_truthy v then
        match v with
        | VStr s => Returned (py_take 100 s +:+ "...")
        | VList _ =>
            Raised (Exn "TypeError"
                      ("can only concatenate list (not " +:+ quote +:+ "str"
                         +:+ quote +:+ ") to list"))
        | _ =>
            Raised (Exn "TypeError"
                      ("'" +:+ type_name v +:+ "' object is not subscriptable"))
        end
      else Returned EmptyString
  end.

(** The body of the loop of lines 98-110 for one record. *)
Definition summarize (record : listed_record) : outcome resource_summary :=
  let metadata := default [] (listed_metadata record) in
  match describe metadata with
  | Returned description =>
      Returned
        {| uri := "pinecone://vectors/" +:+ listed_id record;
           name := default (VStr ("Vector " +:+ listed_id record))
                     (dict_get "title" metadata);
           description := description;
           summary_metadata := metadata;
           mimeType := default (VStr "text/plain")
                         (dict_get "content_type" metadata) |}
  | Raised e => Raised e
  end.

(** The loop of lines 98-110: [resources] is what has been listed so
    far. *)
Fixpoint summarize_all (vectors : list listed_record)
    (resources : list resource_summary) : outcome (list resource_summary) :=
  match vectors with
  | [] => Returned resources
  | record :: vectors' =>
      match summarize record with
      | Returned r => summarize_all vectors' (resources ++ [r])
      | Raised e => Raised e
      end
  end.

(** What [summarize] puts in the summary of a record. *)
Definition summary_of (record : listed_record) (s : resource_summary) : Prop :=
  let md := default [] (listed_metadata record) in
  uri s = "pinecone://vectors/" +:+ listed_id record
  /\ name s = default (VStr ("Vector " +:+ listed_id record)) (dict_get "title" md)
  /\ mimeType s = default (VStr "text/plain") (dict_get "content_type" md)
  /\ summary_metadata s = md
  /\ describe md = Returned (description s).

Section Listing.
Context `{Externals}.
(** [PineconeClient()] *)
Variable new_client : World -> outcome PineconeClient * World.
(** [records.get("vectors", [])] on what [list_records] returned: [None]
    when there is no such key. *)
Variable listed_vectors : Json -> option (list listed_record).
(** [json.dumps(resources, indent=2)] *)
Variable json_dumps_resources : list resource_summary -> string.

Local Open Scope handler_scope.

(** server.py, lines 90-113; the listing is of the default namespace. *)
Definition list_vectors_resource : M string :=
  try_except
    (pinecone_client <- construct_client new_client ;;
     records <- call (list_records pinecone_client None) (CallList None) ;;
     resources <- lift (summarize_all (default [] (listed_vectors records)) []) ;;
     ret (json_dumps_resources resources))
    (fun e => ret (json_dumps_error (str_exn e))).

End Listing.

(** ** The prompts (prompts.py) *)

(** [types.TextContent(type=..., text=...)] *)
Record TextContent : Type := {
  content_type : string;
  content_text : string
}.

(** [types.PromptMessage(role=..., content=...)] *)
Record PromptMessage : Type := {
  role : string;
  content : TextContent
}.

Definition user_message (text : string) : PromptMessage :=
  {| role := "user"; content := {| content_type := "text"; content_text := text |} |}.

(** prompts.py, lines 28-53: the messages of the [GetPromptResult], or the
    [ValueError] raised to the caller. *)
Definition pinecone_query_prompt (query : string) : outcome (list PromptMessage) :=
  if String.eqb query EmptyString then
    Raised (Exn "ValueError" "Query required")
  else
    Returned
      [user_message
         "First use pinecone-stats to get a list of namespaces that might contain relevant documents. Ignore if a namespace is specified in the query";
       user_message
         ("Do a semantic search for the query: " +:+ query
            +:+ " with the chosen namespace")].

(** [f"{namespace}"] for an [Optional[str]]. *)
Definition optional_text (namespace : option string) : string :=
  match namespace with
  | Some n => n
  | None => "None"
  end.

(** prompts.py, lines 59-100; [now] is [datetime.now().isoformat()]. *)
Definition pinecone_store_prompt `{Externals} (now : string) (content : string)
    (namespace : option string) : outcome (list PromptMessage) :=
  if String.eqb content EmptyString then
    Raised (Exn "ValueError" "Content required")
  else
    let metadata := "{'date': " +:+ py_repr now +:+ "}" in
    Returned
      [user_message
         ("The namespace is "
            +:+ (if truthy_str namespace then optional_text namespace
                 else "not specified")
            +:+ ". " +:+ nl
            +:+ "If the namespace is not specified, use pinecone-stats to find an appropriate namespace or use the default namespace.");
       user_message
         ("Based on the content, generate metadata that can be relevant to the content and used for filtering. "
            +:+ nl
            +:+ "The metadata should be a dictionary with keys and values that are relevant to the content. "
            +:+ nl
            +:+ "Append the metdata to " +:+ metadata +:+ " " +:+ nl);
       user_message
         ("Run the process-document tool with the content: " +:+ content
            +:+ " " +:+ nl
            +:+ "Include generated metadata in the document. " +:+ nl
            +:+ "Store in the " +:+ optional_text namespace +:+ " if specified")].

(** Records of a listing for the instance: a note with a long text, a
    record without metadata, a record whose text is a number. *)
Definition long_note : listed_record :=
  {| listed_id := "v1";
     listed_metadata :=
       Some [("title", VStr "Note");
             ("text", VStr "0123456789012345678901234567890123456789012345678901234567890123456789012345678901234567890123456789tail")] |}.

Definition bare_record : listed_record :=
  {| listed_id := "v2"; listed_metadata := None |}.

Definition numbered_record : listed_record :=
  {| listed_id := "v3"; listed_metadata := Some [("text", VInt 7)] |}.

(** Matches for the instance: one with a text, one without metadata, one
    whose text is a number; and a client whose store answers with given
    matches. *)
Definition alpha_match : @search_match demo :=
  @Build_search_match demo 1 "doc1-1" (Some [("text", VStr "alpha")]).

Definition bare_match : @search_match demo :=
  @Build_search_match demo 0 "doc1-2" None.

Definition numbered_match : @search_match demo :=
  @Build_search_match demo 0 "doc1-3" (Some [("text", VInt 7)]).

Definition answering_client (ms : list (@search_match demo)) : @PineconeClient demo :=
  @Build_PineconeClient demo
    (fun _ _ _ _ _ w => (Returned (@Build_search_results demo (Some ms)), w))
    (fun w => (Returned "{}", w))
    (fun _ _ w => (Returned empty_index, w))
    (fun _ w => (Returned [0], w))
    (fun _ _ w => (Returned tt, w))
    (fun _ w => (Returned "{}", w)).

(** A client whose embedding service fails on the text [beta] only, and a
    chunker that fails. *)
Definition picky_client : @PineconeClient demo :=
  @Build_PineconeClient demo
    (fun _ _ _ _ _ w => (Returned (@Build_search_results demo (Some [])), w))
    (fun w => (Returned "{}", w))
    (fun _ _ w => (Returned empty_index, w))
    (fun t w => (if String.eqb t "beta" then Raised service_down
                 else Returned [0], w))
    (fun _ _ w => (Returned tt, w))
    (fun _ w => (Returned "{}", w)).

Definition gamma_chunk : Chunk :=
  {| chunk_id := "doc1-3"; chunk_content := "gamma";
     chunk_metadata := [("index", VInt 3)] |}.

Definition broken_chunker : @Chunker demo :=
  fun _ _ _ w => (Raised (Exn "ValueError" "Unknown chunk type: smart"), w).

(** For the instance: what a listing holds, and a stand-in for the JSON
    text of the summaries (their URIs). *)
Definition demo_listed (vs : list listed_record) : @Json demo -> option (list listed_record) :=
  fun _ => Some vs.

Definition demo_dumps (rs : list resource_summary) : string :=
  join ", " (uri <$> rs).

(** * Properties *)

(** ** The filter *)

Section FilterFacts.
Implicit Types (category : option string) (tags : option (list string)).
Implicit Types (date_range : option (gmap string string)).

(** The filter holds, key by key, the entries of the three parameters and
    nothing else. *)
Lemma build_filters_lookup category tags date_range (k : string) :
  build_filters category tags date_range !! k =
    if decide (k = "category") then category_entry category
    else if decide (k = "tags") then tags_entry tags
    else if decide (k = "date") then date_entry date_range
    else None.
Proof.
  unfold build_filters, category_entry, tags_entry, date_entry, truthy_dict.
  destruct category as [c|]; [cbn [truthy_str]; destruct (String.eqb c EmptyString)|];
    (destruct tags as [[|t ts]|]; cbn [truthy_list negb]);
    (destruct date_range as [dr|];
     [destruct (bool_decide (dr = ∅)) eqn:Hdr; cbn [negb];
      [apply bool_decide_eq_true in Hdr; subst dr; rewrite !lookup_empty
      |destruct (dr !! "start"), (dr !! "end")]|]);
    repeat case_decide; simplify_map_eq; reflexivity.
Qed.

Lemma build_filters_category category tags date_range :
  build_filters category tags date_range !! "category" = category_entry category.
Proof. rewrite build_filters_lookup. now repeat case_decide. Qed.

Lemma build_filters_tags category tags date_range :
  build_filters category tags date_range !! "tags" = tags_entry tags.
Proof. rewrite build_filters_lookup. now repeat case_decide. Qed.

Lemma build_filters_date category tags date_range :
  build_filters category tags date_range !! "date" = date_entry date_range.
Proof. rewrite build_filters_lookup. now repeat case_decide. Qed.

Lemma date_entry_one_sided (dr : gmap string string) :
  dr !! "start" = None \/ dr !! "end" = None ->
  date_entry (Some dr) = date_entry None.
Proof.
  intros [Hs|He]; cbn [date_entry].
  - now rewrite Hs.
  - rewrite He. now destruct (dr !! "start").
Qed.
End FilterFacts.

Section FilterMeaningFacts.
Variable leb : string -> string -> bool.

Lemma field_holds_value (c : string) (field : option value) :
  field_holds leb (FValue c) field = true <-> field = Some (VStr c).
Proof.
  destruct field as [[s| | |]|]; cbn; try (split; [discriminate|congruence]).
  rewrite String.eqb_eq. split; congruence.
Qed.

Lemma field_holds_in (ts : list string) (field : option value) :
  field_holds leb (FIn ts) field = true <->
  exists l t, field = Some (VList l) /\ In t l /\ In t ts.
Proof.
  destruct field as [[| | |l]|]; cbn;
    try (split; [discriminate|intros (l' & t & Hf & _); discriminate]).
  rewrite existsb_exists. split.
  - intros (t & Hl & Ht). apply existsb_exists in Ht as (t' & Hts & Heq).
    apply String.eqb_eq in Heq. subst t'. eauto.
  - intros (l' & t & Hf & Hl & Hts). injection Hf as <-.
    exists t. split; [assumption|].
    apply existsb_exists. exists t. split; [assumption|apply String.eqb_refl].
Qed.

Lemma field_holds_range (s e : string) (field : option value) :
  field_holds leb (FRange s e) field = true <->
  exists d, field = Some (VStr d) /\ leb s d = true /\ leb d e = true.
Proof.
  destruct field as [[d| | |]|]; cbn;
    try (split; [discriminate|intros (d' & Hf & _); discriminate]).
  rewrite andb_true_iff. split.
  - intros [? ?]. eauto.
  - intros (d' & Hf & ? & ?). injection Hf as <-. auto.
Qed.

(** A record matches the filter exactly when it meets the constraint of
    every parameter that has an entry. *)
Lemma filter_matches_build_filters category tags date_range (md : metadata_t) :
  filter_matches leb (build_filters category tags date_range) md <->
    (forall c, category = Some c -> c <> EmptyString -> category_equals c md)
    /\ (forall ts, tags = Some ts -> ts <> [] -> tags_intersect ts md)
    /\ (forall dr s e, date_range = Some dr ->
          dr !! "start" = Some s -> dr !! "end" = Some e ->
          date_within leb s e md).
Proof.
  unfold filter_matches, map_Forall. split.
  - intros Hall. repeat split.
    + intros c -> Hc. apply field_holds_value, Hall.
      rewrite build_filters_category. cbn.
      destruct (String.eqb_spec c EmptyString); congruence.
    + intros ts -> Hts. apply field_holds_in, Hall.
      rewrite build_filters_tags. cbn. now destruct ts.
    + intros dr s e -> Hs He. apply field_holds_range, Hall.
      rewrite build_filters_date. cbn. now rewrite Hs, He.
  - intros (Hc & Ht & Hd) k fv. rewrite build_filters_lookup.
    repeat case_decide; subst; try discriminate.
    + destruct category as [c|]; cbn; [|discriminate].
      destruct (String.eqb_spec c EmptyString); [discriminate|].
      intros [= <-]. now apply field_holds_value, Hc.
    + destruct tags as [[|t ts]|]; cbn; try discriminate.
      intros [= <-]. now apply field_holds_in, Ht.
    + destruct date_range as [dr|]; cbn; [|discriminate].
      destruct (dr !! "start") as [s|] eqn:Hs; [|discriminate].
      destruct (dr !! "end") as [e|] eqn:He; [|discriminate].
      intros [= <-]. now apply field_holds_range, (Hd dr).
Qed.
End FilterMeaningFacts.

(** ** The handler monad *)

Section HandlerFacts.
Context `{Externals}.

Lemma report_error_run (what : string) (e : exn) (st : state) :
  report_error what e st =
    (Returned (text_content ("Error: " +:+ str_exn e)),
     {| world := world st;
        trace := trace st ++ [LogError (what +:+ str_exn e)] |}).
Proof. reflexivity. Qed.

(** A body wrapped in [try]/[except Exception] with [report_error] always
    returns. *)
Lemma try_except_report_returns (body : M tool_result) (what : string)
    (st : state) :
  exists res st', try_except body (report_error what) st = (Returned res, st').
Proof.
  unfold try_except. destruct (body st) as [[res|e] st']; eauto.
Qed.
End HandlerFacts.

(** ** semantic-search *)

Section SemanticSearchFacts.
Context `{Externals}.
Variable pinecone_client : PineconeClient.

(** The handler reads [category], [tags] and [date_range] only through
    the filter. *)
Lemma semantic_search_tool_filters query top_k namespace
    category tags date_range category' tags' date_range' :
  build_filters category tags date_range
    = build_filters category' tags' date_range' ->
  semantic_search_tool pinecone_client query top_k namespace
      category tags date_range
    = semantic_search_tool pinecone_client query top_k namespace
        category' tags' date_range'.
Proof. unfold semantic_search_tool. intros ->. reflexivity. Qed.

(** Whatever the arguments, the handler queries the store once, with the
    query as given and the filter of its parameters. *)
Lemma semantic_search_calls query top_k namespace category tags date_range w :
  search_calls
    (trace (run (semantic_search_tool pinecone_client query top_k namespace
                   category tags date_range) w).2)
  = [(query, top_k, build_filters category tags date_range, true, namespace)].
Proof.
  unfold run, semantic_search_tool, try_except, bind, call, lift, ret. cbn.
  destruct (search_records _ _ _ _ _ _ _) as [[results|e] w']; cbn;
    [destruct (format_matches _ _ _)|]; reflexivity.
Qed.
End SemanticSearchFacts.

(** C1. The handler does not look at the query before it calls the client:
    with the empty string as query it queries the store once, with that
    query, whatever the client and the other arguments; and over an index
    that answers with no match it returns the heading of an empty result
    list, not an error. *)
Theorem semantic_search_empty_query_reaches_the_store :
  (forall (E : Externals) (pinecone_client : PineconeClient) top_k namespace
          category tags date_range (w : World),
      search_calls
        (trace (run (semantic_search_tool pinecone_client EmptyString top_k
                       namespace category tags date_range) w).2)
      = [(EmptyString, top_k, build_filters category tags date_range, true,
          namespace)])
  /\ @run demo _
       (semantic_search_tool (demo_client empty_index) EmptyString 10
          None None None None) tt
     = (Returned (text_content ("Retrieved Contexts:" +:+ nl +:+ nl)),
        @Build_state demo tt
          [@CallSearch demo EmptyString 10 ∅ true None
             (Returned (@Build_search_results demo (Some [])))]).
Proof.
  split.
  - intros. apply semantic_search_calls.
  - reflexivity.
Qed.

(** C5. A date range that lacks [start] or lacks [end] (so, in particular,
    one that has only one of the two) gives the same filter as no date
    range, and the whole call runs as it does without a date range: same
    query to the store, same result, nothing raised for the range. *)
Theorem one_sided_date_range_is_ignored `{Externals}
    (pinecone_client : PineconeClient) query top_k namespace category tags
    (dr : gmap string string) (w : World) :
  dr !! "start" = None \/ dr !! "end" = None ->
  build_filters category tags (Some dr) = build_filters category tags None
  /\ run (semantic_search_tool pinecone_client query top_k namespace
            category tags (Some dr)) w
     = run (semantic_search_tool pinecone_client query top_k namespace
              category tags None) w.
Proof.
  intros Hone.
  assert (Hf : build_filters category tags (Some dr)
               = build_filters category tags None).
  { apply map_eq. intros k. rewrite !build_filters_lookup.
    now rewrite (date_entry_one_sided dr Hone). }
  split; [exact Hf|].
  now rewrite (semantic_search_tool_filters _ _ _ _ _ _ _ _ _ _ Hf).
Qed.

Lemma one_sided_date_range_is_ignored_witness :
  let dr : gmap string string := {["start" := "2024-01-01"]} in
  build_filters (Some "news") (Some ["ai"]) (Some dr)
    = build_filters (Some "news") (Some ["ai"]) None
  /\ @run demo _
       (semantic_search_tool (demo_client empty_index) "vector search" 10
          None (Some "news") (Some ["ai"]) (Some dr)) tt
     = @run demo _
         (semantic_search_tool (demo_client empty_index) "vector search" 10
            None (Some "news") (Some ["ai"]) None) tt.
Proof.
  intros dr.
  apply (@one_sided_date_range_is_ignored demo (demo_client empty_index)).
  right. reflexivity.
Defined.

(** C10. An empty category and an empty tag list are read as if the
    parameter had been left out: the filter is the same, and so is the
    whole call. *)
Theorem empty_category_or_tags_is_omitted `{Externals}
    (pinecone_client : PineconeClient) query top_k namespace category tags
    date_range (w : World) :
  (build_filters (Some EmptyString) tags date_range
     = build_filters None tags date_range
   /\ run (semantic_search_tool pinecone_client query top_k namespace
             (Some EmptyString) tags date_range) w
      = run (semantic_search_tool pinecone_client query top_k namespace
               None tags date_range) w)
  /\ (build_filters category (Some []) date_range
        = build_filters category None date_range
      /\ run (semantic_search_tool pinecone_client query top_k namespace
                category (Some []) date_range) w
         = run (semantic_search_tool pinecone_client query top_k namespace
                  category None date_range) w).
Proof.
  assert (Hc : build_filters (Some EmptyString) tags date_range
               = build_filters None tags date_range).
  { apply map_eq. intros k. now rewrite !build_filters_lookup. }
  assert (Ht : build_filters category (Some []) date_range
               = build_filters category None date_range).
  { apply map_eq. intros k. now rewrite !build_filters_lookup. }
  split; (split; [assumption|]).
  - now rewrite (semantic_search_tool_filters _ _ _ _ _ _ _ _ _ _ Hc).
  - now rewrite (semantic_search_tool_filters _ _ _ _ _ _ _ _ _ _ Ht).
Qed.

(** C6, as stated, fails on an empty tag list: the list is supplied, yet
    the filter sent to the store has no entry for [tags] and matches a
    record whose tags have nothing in common with it. *)
Lemma supplied_empty_tags_add_no_constraint :
  let md : metadata_t := [("tags", VList ["rocq"])] in
  search_calls
    (trace (@run demo _
              (semantic_search_tool (demo_client empty_index) "vector search"
                 10 None None (Some []) None) tt).2)
    = [("vector search", 10, ∅, true, None)]
  /\ build_filters None (Some []) None !! "tags" = None
  /\ filter_matches String.leb (build_filters None (Some []) None) md
  /\ ~ tags_intersect [] md.
Proof.
  cbn zeta. repeat split.
  - intros k fv. cbn. rewrite lookup_empty. discriminate.
  - intros (l & t & _ & _ & []).
Qed.

(** C6, amended. The filter sent to the store has an entry for each
    parameter that is supplied and not empty, and no other entry: an
    equality on [category] for a category other than the empty string,
    [$in] on [tags] for a tag list with at least one tag, inclusive bounds
    on [date] for a date range with both [start] and [end].  Read by the
    store, it is the AND of these constraints; a parameter that is left
    out, empty or (for the range) one-sided puts no constraint. *)
Theorem filter_is_and_of_nonempty_constraints `{Externals}
    (pinecone_client : PineconeClient) query top_k namespace category tags
    date_range (w : World) (leb : string -> string -> bool) :
  let filters := build_filters category tags date_range in
  search_calls
    (trace (run (semantic_search_tool pinecone_client query top_k namespace
                   category tags date_range) w).2)
    = [(query, top_k, filters, true, namespace)]
  /\ (forall k : string,
        filters !! k =
          if decide (k = "category") then
            match category with
            | Some c => if String.eqb c EmptyString then None else Some (FValue c)
            | None => None
            end
          else if decide (k = "tags") then
            match tags with
            | Some (t :: ts) => Some (FIn (t :: ts))
            | _ => None
            end
          else if decide (k = "date") then
            match date_range with
            | Some dr =>
                match dr !! "start", dr !! "end" with
                | Some s, Some e => Some (FRange s e)
                | _, _ => None
                end
            | None => None
            end
          else None)
  /\ (forall md : metadata_t,
        filter_matches leb filters md <->
          (forall c, category = Some c -> c <> EmptyString ->
             category_equals c md)
          /\ (forall ts, tags = Some ts -> ts <> [] -> tags_intersect ts md)
          /\ (forall dr s e, date_range = Some dr ->
                dr !! "start" = Some s -> dr !! "end" = Some e ->
                date_within leb s e md)).
Proof.
  intros filters. split; [apply semantic_search_calls|]. split.
  - intros k. apply build_filters_lookup.
  - intros md. apply filter_matches_build_filters.
Qed.

Lemma filter_is_and_of_nonempty_constraints_witness :
  filter_matches String.leb
    (build_filters (Some "news") (Some ["ai"]) None)
    [("category", VStr "news"); ("tags", VList ["ml"; "ai"])].
Proof.
  apply (proj2 (proj2 (proj2
           (@filter_is_and_of_nonempty_constraints demo (demo_client empty_index)
              "vector search" 10 None (Some "news") (Some ["ai"]) None tt
              String.leb))
           [("category", VStr "news"); ("tags", VList ["ml"; "ai"])])).
  repeat split.
  - intros c [= <-] _. reflexivity.
  - intros ts [= <-] _. exists ["ml"; "ai"], "ai". cbn. auto.
  - discriminate.
Defined.

(** ** process-document *)

Section EmbeddingLoopFacts.
Context `{Externals}.

Lemma chunks_partition (chunks : list Chunk) :
  List.length chunks
    = (List.length (surviving chunks) + List.length (skipped chunks))%nat.
Proof.
  unfold surviving, skipped.
  induction chunks as [|c cs IH]; cbn; [reflexivity|].
  destruct (valid_chunk c); cbn; lia.
Qed.

(** The loop emits warnings and embedding calls only. *)
Lemma embed_run_no_other_call chunks acc evs r :
  embed_run chunks acc evs r ->
  upsert_calls evs = [] /\ search_calls evs = [].
Proof. induction 1; cbn; auto. Qed.

(** Texts are sent to the embedding client in the order of the surviving
    chunks, each at most once. *)
Lemma embed_run_prefix chunks acc evs r :
  embed_run chunks acc evs r ->
  (embed_calls evs).*1 `prefix_of` chunk_content <$> surviving chunks.
Proof.
  unfold surviving.
  induction 1 as [acc|c cs acc evs r Hc _ IH|c cs acc x evs r Hc _ IH|c cs acc e Hc];
    cbn; rewrite ?Hc; cbn.
  - reflexivity.
  - exact IH.
  - now apply prefix_cons.
  - apply prefix_cons, prefix_nil.
Qed.

(** A loop that ends normally has warned about every skipped chunk, has
    embedded every surviving chunk, and returns one record per surviving
    chunk, after those it started with. *)
Lemma embed_run_returned chunks acc evs batch :
  embed_run chunks acc evs (Returned batch) ->
  embeddings_succeeded evs
  /\ warned_chunks evs = skipped chunks
  /\ (embed_calls evs).*1 = chunk_content <$> surviving chunks
  /\ List.length (embeddings evs) = List.length (surviving chunks)
  /\ batch = acc ++ zip_with make_record (surviving chunks) (embeddings evs).
Proof.
  remember (Returned batch) as r eqn:Hr. intros Hrun. revert batch Hr.
  induction Hrun as [acc|c cs acc evs r Hc _ IH|c cs acc x evs r Hc _ IH|c cs acc e Hc];
    intros batch Hr.
  - injection Hr as <-. rewrite app_nil_r. repeat split. constructor.
  - destruct (IH batch Hr) as (Hok & Hw & Hcalls & Hlen & Hb).
    unfold surviving, skipped in *. cbn [List.filter]. rewrite Hc.
    repeat split; try assumption.
    change (c :: warned_chunks evs = c :: List.filter (fun c => negb (valid_chunk c)) cs).
    now rewrite Hw.
  - destruct (IH batch Hr) as (Hok & Hw & Hcalls & Hlen & Hb).
    unfold surviving, skipped in *. cbn [List.filter]. rewrite Hc.
    repeat split.
    + constructor; [now exists x|exact Hok].
    + exact Hw.
    + change ((chunk_content c :: (embed_calls evs).*1)
              = chunk_content c :: (chunk_content <$> List.filter valid_chunk cs)).
      now rewrite Hcalls.
    + change (S (List.length (embeddings evs))
              = S (List.length (List.filter valid_chunk cs))).
      now rewrite Hlen.
    + rewrite Hb, <- app_assoc. reflexivity.
  - discriminate.
Qed.

(** A loop that ends with an exception ends on the embedding call that
    raised it. *)
Lemma embed_run_raised chunks acc evs e :
  embed_run chunks acc evs (Raised e) ->
  ~ embeddings_succeeded evs.
Proof.
  unfold embeddings_succeeded.
  remember (Raised e) as r eqn:Hr. intros Hrun. revert Hr.
  induction Hrun as [acc|c cs acc evs r Hc _ IH|c cs acc x evs r Hc _ IH|c cs acc e' Hc];
    intros Hr.
  - discriminate Hr.
  - exact (IH Hr).
  - intros Hall. apply Forall_cons in Hall as [_ Hall]. exact (IH Hr Hall).
  - intros Hall. apply Forall_cons in Hall as [[x Hx] _]. discriminate Hx.
Qed.

(** Whatever call raised in the loop, the loop ends with its exception. *)
Lemma embed_run_call_raised chunks acc evs r ev e :
  embed_run chunks acc evs r ->
  ev ∈ evs -> call_raised ev = Some e -> r = Raised e.
Proof.
  induction 1 as [acc|c cs acc evs r Hc _ IH|c cs acc x evs r Hc _ IH|c cs acc e' Hc];
    intros Hin Hev.
  - inversion Hin.
  - apply elem_of_cons in Hin as [->|Hin]; [discriminate|auto].
  - apply elem_of_cons in Hin as [->|Hin]; [discriminate|auto].
  - apply list_elem_of_singleton in Hin as ->. cbn in Hev. congruence.
Qed.

Variable pinecone_client : PineconeClient.

(** One turn of the loop. *)
Lemma embed_chunks_cons c cs acc st :
  embed_chunks pinecone_client (c :: cs) acc st =
    if valid_chunk c then
      match generate_embeddings pinecone_client (chunk_content c) (world st) with
      | (Returned x, w') =>
          embed_chunks pinecone_client cs (acc ++ [make_record c x])
            {| world := w';
               trace := trace st ++ [CallEmbed (chunk_content c) (Returned x)] |}
      | (Raised e, w') =>
          (Raised e,
           {| world := w';
              trace := trace st ++ [CallEmbed (chunk_content c) (Raised e)] |})
      end
    else
      embed_chunks pinecone_client cs acc
        {| world := world st;
           trace := trace st ++ [LogWarningChunk "Skipping invalid chunk: " c] |}.
Proof.
  unfold valid_chunk. cbn [embed_chunks].
  destruct (String.eqb (chunk_content c) EmptyString
            || String.eqb (chunk_id c) EmptyString); cbn [negb].
  - reflexivity.
  - unfold bind, call.
    destruct (generate_embeddings pinecone_client (chunk_content c) (world st))
      as [[x|e] w']; reflexivity.
Qed.

(** The loop of the handler runs as [embed_run] says. *)
Lemma embed_chunks_sound chunks :
  forall acc st,
  exists evs,
    embed_run chunks acc evs (embed_chunks pinecone_client chunks acc st).1
    /\ trace (embed_chunks pinecone_client chunks acc st).2 = trace st ++ evs.
Proof.
  induction chunks as [|c cs IH]; intros acc st.
  - exists []. cbn. split; [constructor|now rewrite app_nil_r].
  - rewrite embed_chunks_cons. destruct (valid_chunk c) eqn:Hc.
    + destruct (generate_embeddings pinecone_client (chunk_content c) (world st))
        as [[x|e] w'].
      * destruct (IH (acc ++ [make_record c x])
                    {| world := w';
                       trace := trace st
                                ++ [CallEmbed (chunk_content c) (Returned x)] |})
          as (evs & Hrun & Htr).
        exists (CallEmbed (chunk_content c) (Returned x) :: evs). split.
        -- now apply embed_run_embedded.
        -- rewrite Htr. cbn. now rewrite <- app_assoc.
      * exists [CallEmbed (chunk_content c) (Raised e)]. split; [|reflexivity].
        now apply embed_run_failed.
    + destruct (IH acc
                  {| world := world st;
                     trace := trace st
                              ++ [LogWarningChunk "Skipping invalid chunk: " c] |})
        as (evs & Hrun & Htr).
      exists (LogWarningChunk "Skipping invalid chunk: " c :: evs). split.
      * now apply embed_run_skip.
      * rewrite Htr. cbn. now rewrite <- app_assoc.
Qed.
End EmbeddingLoopFacts.

Section ProcessDocumentFacts.
Context `{Externals}.
Variable pinecone_client : PineconeClient.
Variable chunker : Chunker.

(** A run of the handler when the chunker raises. *)
Lemma process_document_chunker_raised document_id text metadata namespace
    (w w1 : World) e :
  chunker document_id text metadata w = (Raised e, w1) ->
  run (process_document_tool pinecone_client chunker document_id text
         metadata namespace) w
  = (Returned (text_content ("Error: " +:+ str_exn e)),
     {| world := w1;
        trace := [CallChunk document_id text metadata (Raised e);
                  LogError ("Error processing document: " +:+ str_exn e)] |}).
Proof.
  intros Hch. unfold run, process_document_tool, try_except, bind, call.
  cbn. rewrite Hch. reflexivity.
Qed.

(** A run of the handler when the chunker returns [chunks]: the call to
    the chunker, the embedding loop over [chunks], then one of the four
    endings. *)
Lemma process_document_run document_id text metadata namespace
    (w w1 : World) chunks :
  chunker document_id text metadata w = (Returned chunks, w1) ->
  exists evs r res tail st,
    embed_run chunks [] evs r
    /\ ingest_end document_id namespace r res tail
    /\ run (process_document_tool pinecone_client chunker document_id text
              metadata namespace) w = (Returned res, st)
    /\ trace st
       = CallChunk document_id text metadata (Returned chunks) :: evs ++ tail.
Proof.
  intros Hch. unfold run, process_document_tool, try_except, bind, call.
  cbn. rewrite Hch.
  destruct (embed_chunks_sound pinecone_client chunks []
              {| world := w1;
                 trace := [CallChunk document_id text metadata (Returned chunks)] |})
    as (evs & Hrun & Htr).
  destruct (embed_chunks pinecone_client chunks [] _) as [[batch|e] st2].
  - cbn in Hrun, Htr. destruct batch as [|b bs].
    + exists evs, (Returned []), (text_content "Error: No embedded chunks found"),
        [], st2.
      repeat split; [assumption|constructor|]. now rewrite app_nil_r.
    + destruct (upsert_records pinecone_client (b :: bs) namespace (world st2))
        as [[u|e] w3] eqn:Hup.
      * eexists evs, (Returned (b :: bs)), _, _, _.
        split; [eassumption|]. split; [now apply (ingest_end_upserted _ _ _ u)|].
        split; [reflexivity|]. cbn. rewrite Htr. cbn. reflexivity.
      * eexists evs, (Returned (b :: bs)), _, _, _.
        split; [eassumption|]. split; [now apply (ingest_end_upsert_failed _ _ _ e)|].
        split; [reflexivity|]. cbn. rewrite Htr. cbn.
        now rewrite <- app_assoc.
  - cbn in Hrun, Htr.
    eexists evs, (Raised e), _, _, _.
    split; [eassumption|]. split; [constructor|].
    split; [reflexivity|]. cbn. now rewrite Htr.
Qed.
End ProcessDocumentFacts.

Section IngestionTraceFacts.
Context `{Externals}.

(** The loop emits nothing but embedding calls and warnings. *)
Lemma embed_run_events chunks acc evs r ev :
  embed_run chunks acc evs r -> ev ∈ evs ->
  (exists t x, ev = CallEmbed t x) \/ (exists m c, ev = LogWarningChunk m c).
Proof.
  induction 1 as [acc|c cs acc evs r Hc _ IH|c cs acc x evs r Hc _ IH|c cs acc e Hc];
    intros Hin.
  - inversion Hin.
  - apply elem_of_cons in Hin as [->|Hin]; eauto.
  - apply elem_of_cons in Hin as [->|Hin]; eauto.
  - apply list_elem_of_singleton in Hin as ->. eauto.
Qed.

(** What the events after the loop add to the views of the trace. *)
Lemma ingest_end_views document_id namespace r res tail :
  ingest_end document_id namespace r res tail ->
  embed_calls tail = [] /\ embeddings tail = [] /\ warned_chunks tail = []
  /\ upsert_calls tail
     = match r with
       | Returned (b :: bs) => [(b :: bs, namespace)]
       | _ => []
       end.
Proof.
  destruct 1 as [e| |[|b bs] u Hb|[|b bs] e Hb]; cbn; auto; congruence.
Qed.

(** The views of the trace of an ingestion, from those of its loop. *)
Lemma ingestion_views document_id text metadata namespace chunks evs r res tail :
  embed_run chunks [] evs r ->
  ingest_end document_id namespace r res tail ->
  let tr := CallChunk document_id text metadata (Returned chunks) :: evs ++ tail in
  embed_calls tr = embed_calls evs
  /\ embeddings tr = embeddings evs
  /\ warned_chunks tr = warned_chunks evs
  /\ upsert_calls tr
     = match r with
       | Returned (b :: bs) => [(b :: bs, namespace)]
       | _ => []
       end.
Proof.
  intros Hrun Hend tr.
  destruct (ingest_end_views _ _ _ _ _ Hend) as (Hec & Hem & Hwc & Huc).
  destruct (embed_run_no_other_call _ _ _ _ Hrun) as [Hup _].
  unfold tr, embed_calls, embeddings, warned_chunks, upsert_calls in *.
  cbn [omap list_omap]. rewrite !omap_app, Hec, Hem, Hwc, Huc, Hup, !app_nil_r.
  auto.
Qed.

Lemma record_ids_of_batch (cs : list Chunk) (xs : list Embedding) :
  List.length xs = List.length cs ->
  record_id <$> zip_with make_record cs xs = chunk_id <$> cs.
Proof.
  revert xs. induction cs as [|c cs IH]; intros [|x xs] Hlen;
    try discriminate; [reflexivity|].
  cbn. f_equal. apply IH. now injection Hlen.
Qed.

Lemma embed_call_in_trace (tr : list event) t r :
  (t, r) ∈ embed_calls tr -> CallEmbed t r ∈ tr.
Proof.
  unfold embed_calls. rewrite list_elem_of_omap.
  intros (ev & Hin & Hev). destruct ev; try discriminate.
  now injection Hev as -> ->.
Qed.
End IngestionTraceFacts.

(** C8. When the chunker returns no chunk, the handler returns the error
    [Error: No embedded chunks found]; the call to the chunker is the only
    thing it does, so nothing is embedded and nothing is upserted. *)
Theorem no_chunks_is_an_error `{Externals} (pinecone_client : PineconeClient)
    (chunker : Chunker) document_id text metadata namespace (w w1 : World) :
  chunker document_id text metadata w = (Returned [], w1) ->
  let out := run (process_document_tool pinecone_client chunker document_id
                    text metadata namespace) w in
  out.1 = Returned (text_content "Error: No embedded chunks found")
  /\ trace out.2 = [CallChunk document_id text metadata (Returned [])]
  /\ upsert_calls (trace out.2) = []
  /\ embed_calls (trace out.2) = [].
Proof.
  intros Hch out. subst out.
  unfold run, process_document_tool, try_except, bind, call. cbn.
  rewrite Hch. cbn. auto.
Qed.

Lemma no_chunks_is_an_error_witness :
  let out := @run demo _
               (process_document_tool (demo_client empty_index) (demo_chunker [])
                  "doc1" "   " [] None) tt in
  out.1 = Returned (text_content "Error: No embedded chunks found")
  /\ trace out.2 = [@CallChunk demo "doc1" "   " [] (Returned [])]
  /\ upsert_calls (trace out.2) = []
  /\ embed_calls (trace out.2) = [].
Proof.
  apply (@no_chunks_is_an_error demo (demo_client empty_index) (demo_chunker [])
           "doc1" "   " [] None tt tt).
  reflexivity.
Defined.

(** C2, as stated, fails when no chunk survives: no embedding call fails
    (none is made), and upsert is not called at all. *)
Lemma no_surviving_chunk_no_upsert :
  let out := @run demo _
               (process_document_tool (demo_client empty_index)
                  (demo_chunker [blank_chunk]) "doc1" "   " [] None) tt in
  embeddings_succeeded (trace out.2)
  /\ List.length (upsert_calls (trace out.2)) <> 1%nat.
Proof.
  cbn. split; [constructor|discriminate].
Qed.

(** C2, amended. In an ingestion the texts sent to the embedding client are
    those of the surviving chunks, in order, each at most once.  If an
    embedding call raises, the handler returns the error and upsert is
    never called.  If none raises, every surviving chunk has been embedded
    exactly once, and upsert is called once, with the records of all the
    surviving chunks, when there is at least one; when no chunk survives,
    upsert is not called. *)
Theorem ingestion_embeds_then_upserts_full_batch `{Externals}
    (pinecone_client : PineconeClient) (chunker : Chunker)
    document_id text metadata namespace (w w1 : World) chunks :
  chunker document_id text metadata w = (Returned chunks, w1) ->
  let out := run (process_document_tool pinecone_client chunker document_id
                    text metadata namespace) w in
  let tr := trace out.2 in
  (embed_calls tr).*1 `prefix_of` chunk_content <$> surviving chunks
  /\ (forall t e, (t, Raised e) ∈ embed_calls tr ->
        out.1 = Returned (text_content ("Error: " +:+ str_exn e))
        /\ upsert_calls tr = [])
  /\ (embeddings_succeeded tr ->
        (embed_calls tr).*1 = chunk_content <$> surviving chunks
        /\ upsert_calls tr
           = match surviving chunks with
             | [] => []
             | _ :: _ =>
                 [(zip_with make_record (surviving chunks) (embeddings tr),
                   namespace)]
             end).
Proof.
  intros Hch out tr.
  destruct (process_document_run pinecone_client chunker _ _ _ namespace _ _ _ Hch)
    as (evs & r & res & tail & st & Hrun & Hend & Hout & Htr).
  destruct (ingestion_views document_id text metadata namespace _ _ _ _ _ Hrun Hend)
    as (Hec & Hem & _ & Huc).
  subst out tr. rewrite Hout. cbn [fst snd]. unfold embeddings_succeeded.
  rewrite Htr, Hec, Hem, Huc.
  split; [exact (embed_run_prefix _ _ _ _ Hrun)|]. split.
  - intros t e Hin. apply embed_call_in_trace in Hin.
    pose proof (embed_run_call_raised _ _ _ _ _ e Hrun Hin eq_refl) as ->.
    inversion Hend; subst. auto.
  - intros Hok. destruct r as [batch|e].
    + destruct (embed_run_returned _ _ _ _ Hrun) as (_ & _ & Hcalls & Hlen & Hb).
      split; [exact Hcalls|]. cbn in Hb. subst batch.
      destruct (surviving chunks) as [|c cs]; [reflexivity|].
      destruct (embeddings evs) as [|x xs]; [discriminate|reflexivity].
    + now destruct (embed_run_raised _ _ _ _ Hrun).
Qed.

Lemma ingestion_embeds_then_upserts_full_batch_witness :
  let out := @run demo _
               (process_document_tool (demo_client empty_index)
                  (demo_chunker [alpha_chunk; blank_chunk; beta_chunk])
                  "doc1" "alpha beta" [] (Some "notes")) tt in
  (embed_calls (trace out.2)).*1 = ["alpha"; "beta"]
  /\ upsert_calls (trace out.2)
     = [([@make_record demo alpha_chunk [0]; @make_record demo beta_chunk [0]],
         Some "notes")].
Proof.
  intros out.
  refine ((fun P => proj2 (proj2 P) _)
            (@ingestion_embeds_then_upserts_full_batch demo
               (demo_client empty_index)
               (demo_chunker [alpha_chunk; blank_chunk; beta_chunk])
               "doc1" "alpha beta" [] (Some "notes") tt tt
               [alpha_chunk; blank_chunk; beta_chunk] eq_refl)).
  repeat constructor; eexists; reflexivity.
Defined.

(** C7, as stated, fails on a document whose only chunk is empty: the
    chunk is skipped with a warning, and then the ingestion does not
    succeed with no record, it returns an error. *)
Lemma only_chunk_skipped_is_an_error :
  let out := @run demo _
               (process_document_tool (demo_client empty_index)
                  (demo_chunker [blank_chunk]) "doc1" "   " [] None) tt in
  warned_chunks (trace out.2) = [blank_chunk]
  /\ out.1 = Returned (text_content "Error: No embedded chunks found")
  /\ out.1 <> Returned (text_content
                          "Successfully processed document. The document ID is doc1").
Proof.
  cbn. repeat split. discriminate.
Qed.

(** C7, amended. In an ingestion in which no embedding call raises, every
    chunk with empty content or an empty identifier is skipped with a
    warning and the others are embedded, in order.  If a chunk survives,
    upsert is called once, with one record per surviving chunk, so with as
    many records as chunks produced minus chunks skipped, and the handler
    reports success when that call returns.  If none survives, the handler
    returns the error [Error: No embedded chunks found] and upserts
    nothing. *)
Theorem invalid_chunks_are_skipped_with_a_warning `{Externals}
    (pinecone_client : PineconeClient) (chunker : Chunker)
    document_id text metadata namespace (w w1 : World) chunks :
  chunker document_id text metadata w = (Returned chunks, w1) ->
  let out := run (process_document_tool pinecone_client chunker document_id
                    text metadata namespace) w in
  let tr := trace out.2 in
  embeddings_succeeded tr ->
  warned_chunks tr = skipped chunks
  /\ (embed_calls tr).*1 = chunk_content <$> surviving chunks
  /\ (surviving chunks <> [] ->
        exists batch,
          upsert_calls tr = [(batch, namespace)]
          /\ record_id <$> batch = chunk_id <$> surviving chunks
          /\ List.length batch
             = (List.length chunks - List.length (skipped chunks))%nat
          /\ (forall u, CallUpsert batch namespace (Returned u) ∈ tr ->
                out.1 = Returned
                          (text_content
                             ("Successfully processed document. The document ID is "
                                +:+ document_id))))
  /\ (surviving chunks = [] ->
        out.1 = Returned (text_content "Error: No embedded chunks found")
        /\ upsert_calls tr = []).
Proof.
  intros Hch out tr.
  destruct (process_document_run pinecone_client chunker _ _ _ namespace _ _ _ Hch)
    as (evs & r & res & tail & st & Hrun & Hend & Hout & Htr).
  destruct (ingestion_views document_id text metadata namespace _ _ _ _ _ Hrun Hend)
    as (Hec & Hem & Hwc & Huc).
  subst out tr. rewrite Hout. cbn [fst snd]. unfold embeddings_succeeded.
  rewrite Htr, Hec, Hwc, Huc. intros Hok.
  destruct r as [batch|e]; [|now destruct (embed_run_raised _ _ _ _ Hrun)].
  destruct (embed_run_returned _ _ _ _ Hrun) as (_ & Hw & Hcalls & Hlen & Hb).
  cbn in Hb.
  split; [exact Hw|]. split; [exact Hcalls|]. split.
  - intros Hne. exists batch.
    assert (Hbl : List.length batch = List.length (surviving chunks)).
    { rewrite Hb, length_zip_with. lia. }
    destruct batch as [|b bs].
    { destruct (surviving chunks); [congruence|discriminate]. }
    split; [reflexivity|]. split.
    { rewrite Hb. now apply record_ids_of_batch. }
    split.
    { rewrite Hbl, (chunks_partition chunks). lia. }
    intros u Hin. apply elem_of_cons in Hin as [Hin|Hin]; [discriminate|].
    apply elem_of_app in Hin as [Hin|Hin].
    + destruct (embed_run_events _ _ _ _ _ Hrun Hin) as [(? & ? & ?)|(? & ? & ?)];
        discriminate.
    + inversion Hend; subst.
      * reflexivity.
      * apply elem_of_cons in Hin as [Hin|Hin]; [discriminate|].
        apply list_elem_of_singleton in Hin. discriminate.
  - intros Hnone. rewrite Hnone in Hb. cbn in Hb. subst batch.
    inversion Hend; subst; [auto|congruence|congruence].
Qed.

Lemma invalid_chunks_are_skipped_with_a_warning_witness :
  let out := @run demo _
               (process_document_tool (demo_client empty_index)
                  (demo_chunker [alpha_chunk; blank_chunk; beta_chunk])
                  "doc1" "alpha beta" [] None) tt in
  warned_chunks (trace out.2) = [blank_chunk]
  /\ (embed_calls (trace out.2)).*1 = ["alpha"; "beta"].
Proof.
  intros out.
  refine ((fun P => conj (proj1 P) (proj1 (proj2 P)))
            (@invalid_chunks_are_skipped_with_a_warning demo
               (demo_client empty_index)
               (demo_chunker [alpha_chunk; blank_chunk; beta_chunk])
               "doc1" "alpha beta" [] None tt tt
               [alpha_chunk; blank_chunk; beta_chunk] eq_refl _)).
  repeat constructor; eexists; reflexivity.
Defined.

(** C4, as stated, fails: two ingestions of the same document that write
    one record and two records return the same report, so the report does
    not tell how many records were written. *)
Lemma success_report_is_silent_on_the_count :
  let one := @run demo _
               (process_document_tool (demo_client empty_index)
                  (demo_chunker [alpha_chunk]) "doc1" "alpha" [] None) tt in
  let two := @run demo _
               (process_document_tool (demo_client empty_index)
                  (demo_chunker [alpha_chunk; beta_chunk]) "doc1" "alpha beta"
                  [] None) tt in
  (List.length <$> (upsert_calls (trace one.2)).*1) = [1%nat]
  /\ (List.length <$> (upsert_calls (trace two.2)).*1) = [2%nat]
  /\ one.1 = two.1
  /\ one.1 = Returned (text_content
                         "Successfully processed document. The document ID is doc1").
Proof.
  cbn. repeat split.
Qed.

(** C4, amended. When the upsert of an ingestion returns, the report is
    the sentence [Successfully processed document. The document ID is]
    followed by the document id, and nothing else: it names the document
    and not the number of records. *)
Theorem success_report_names_the_document `{Externals}
    (pinecone_client : PineconeClient) (chunker : Chunker)
    document_id text metadata namespace (w : World) batch u :
  let out := run (process_document_tool pinecone_client chunker document_id
                    text metadata namespace) w in
  CallUpsert batch namespace (Returned u) ∈ trace out.2 ->
  out.1 = Returned
            (text_content
               ("Successfully processed document. The document ID is "
                  +:+ document_id)).
Proof.
  intros out. subst out.
  destruct (chunker document_id text metadata w) as [[chunks|e] w1] eqn:Hch.
  - destruct (process_document_run pinecone_client chunker _ _ _ namespace _ _ _ Hch)
      as (evs & r & res & tail & st & Hrun & Hend & Hout & Htr).
    rewrite Hout. cbn [fst snd]. rewrite Htr. intros Hin.
    apply elem_of_cons in Hin as [Hin|Hin]; [discriminate|].
    apply elem_of_app in Hin as [Hin|Hin].
    + destruct (embed_run_events _ _ _ _ _ Hrun Hin) as [(? & ? & ?)|(? & ? & ?)];
        discriminate.
    + inversion Hend; subst.
      * apply list_elem_of_singleton in Hin. discriminate.
      * inversion Hin.
      * reflexivity.
      * apply elem_of_cons in Hin as [Hin|Hin]; [discriminate|].
        apply list_elem_of_singleton in Hin. discriminate.
  - rewrite (process_document_chunker_raised pinecone_client chunker _ _ _
               namespace _ _ _ Hch).
    cbn. intros Hin.
    apply elem_of_cons in Hin as [Hin|Hin]; [discriminate|].
    apply list_elem_of_singleton in Hin. discriminate.
Qed.

Lemma success_report_names_the_document_witness :
  (@run demo _
     (process_document_tool (demo_client empty_index)
        (demo_chunker [alpha_chunk; beta_chunk]) "doc1" "alpha beta" [] None)
     tt).1
  = Returned (text_content
                "Successfully processed document. The document ID is doc1").
Proof.
  apply (@success_report_names_the_document demo (demo_client empty_index)
           (demo_chunker [alpha_chunk; beta_chunk]) "doc1" "alpha beta" [] None
           tt [@make_record demo alpha_chunk [0]; @make_record demo beta_chunk [0]]
           tt).
  cbn. apply list_elem_of_In. cbn. auto.
Defined.

(** ** read-document and the vector resource *)

Section ReadingFacts.
Context `{Externals}.

(** A joined text starts as its first line does. *)
Lemma join_head (a : ascii) (x : string) (xs : list string) :
  exists rest, join nl (String a x :: xs) = String a rest.
Proof. destruct xs; cbn; eauto. Qed.

(** The text of [read_document_tool] for a vector with metadata [md]. *)
Lemma read_document_found (pinecone_client : PineconeClient) document_id
    namespace (w w1 : World) resp md :
  fetch_records pinecone_client [document_id] namespace w = (Returned resp, w1) ->
  dict_get document_id (vectors resp) = Some {| vector_metadata := Some md |} ->
  (run (read_document_tool pinecone_client document_id namespace) w).1
  = Returned
      (text_content
         (join nl
            (["Document ID: " +:+ document_id; EmptyString]
               ++ match md with
                  | [] => []
                  | _ :: _ => "Metadata:" :: metadata_lines md
                  end))).
Proof.
  intros Hf Hv. unfold run, read_document_tool, try_except, bind, call. cbn.
  rewrite Hf. cbn. rewrite Hv. destruct md; reflexivity.
Qed.

(** The resource formats the first fetched record as
    [format_text_content] does, and turns a failure of the formatting into
    the JSON error. *)
Lemma get_vector_resource_found
    (new_client : World -> outcome PineconeClient * World) vector_id
    (w w1 w2 : World) pinecone_client resp vd rest :
  new_client w = (Returned pinecone_client, w1) ->
  fetch_records pinecone_client [vector_id] None w1 = (Returned resp, w2) ->
  records resp = Some (vd :: rest) ->
  (run (get_vector_resource new_client vector_id) w).1
  = Returned match format_text_content vd with
             | Returned s => s
             | Raised e => json_dumps_error (str_exn e)
             end.
Proof.
  intros Hn Hf Hr.
  unfold run, get_vector_resource, try_except, bind, call, construct_client.
  cbn. rewrite Hn. cbn. rewrite Hf. cbn. rewrite Hr.
  unfold format_text_content, lift.
  now destruct (join_with_text _ _).
Qed.

(** What [format_text_content] returns starts with [Title: ] or [ID: ]. *)
Lemma format_text_content_head (vd : vector_data) (s : string) :
  format_text_content vd = Returned s ->
  exists rest, s = String "T" rest \/ s = String "I" rest.
Proof.
  unfold format_text_content.
  set (md := default [] (vd_metadata vd)).
  set (output := _ ++ [EmptyString]).
  assert (Hhead : exists a x xs,
             output = String a x :: xs /\ (a = "T"%char \/ a = "I"%char)).
  { subst output. destruct (dict_get "title" md) as [title|].
    - exists "T"%char. eexists _, _. split; [reflexivity|auto].
    - exists "I"%char. eexists _, _. split; [reflexivity|auto]. }
  destruct Hhead as (a & x & xs & -> & Ha).
  unfold join_with_text.
  destruct (dict_get "text" md) as [[t| | |]|]; try discriminate; intros [= <-].
  - destruct (xs ++ [t]); destruct Ha; subst; cbn; eauto.
  - destruct xs; destruct Ha; subst; cbn; eauto.
Qed.
End ReadingFacts.

(** C3, as stated, fails on every stored record; here on [doc1], whose
    metadata has a title, a category and the text.  read-document gives
    the heading [Document ID: doc1], a blank line, [Metadata:] and all
    three fields; the resource gives the title, the id, the category, a
    blank line and the text. *)
Lemma read_document_is_not_the_resource_text :
  let tool := (@run demo _
                 (read_document_tool (demo_client doc1_index) "doc1" None) tt).1 in
  let resource := (@run demo _
                     (get_vector_resource (demo_new_client doc1_index) "doc1")
                     tt).1 in
  tool = Returned
           (text_content
              (join nl ["Document ID: doc1"; EmptyString; "Metadata:";
                        "title: Notes"; "category: news"; "text: hello"]))
  /\ resource = Returned
                  (join nl ["Title: Notes"; "ID: doc1"; "category: news";
                            EmptyString; "hello"])
  /\ (result_text <$> match tool with Returned t => Some t | Raised _ => None end)
     <> match resource with Returned s => Some s | Raised _ => None end.
Proof.
  cbn. repeat split. discriminate.
Qed.

(** C3, amended. For a record stored under an identifier with metadata
    [md], read-document returns [Document ID: id], a blank line and, when
    [md] is not empty, [Metadata:] followed by every field of [md] as
    [key: value].  The resource returns what [format_text_content] gives
    for the record: when the stored text is a string or is absent, the
    title line if there is a title, [ID: id], every field other than
    [title], [text] and [content_type] as [key: value], a blank line, then
    the text if there is one.  The two texts always differ. *)
Theorem read_document_and_resource_formats `{Externals}
    (pinecone_client : PineconeClient)
    (new_client : World -> outcome PineconeClient * World)
    (resource_client : PineconeClient) document_id namespace
    (md : metadata_t) (rest : list vector_data) (resp resp' : fetch_response)
    (w w1 w' w1' w2' : World) :
  fetch_records pinecone_client [document_id] namespace w = (Returned resp, w1) ->
  dict_get document_id (vectors resp) = Some {| vector_metadata := Some md |} ->
  new_client w' = (Returned resource_client, w1') ->
  fetch_records resource_client [document_id] None w1' = (Returned resp', w2') ->
  records resp'
    = Some ({| vd_id := Some document_id; vd_metadata := Some md |} :: rest) ->
  let vd := {| vd_id := Some document_id; vd_metadata := Some md |} in
  let tool := (run (read_document_tool pinecone_client document_id namespace) w).1 in
  let resource := (run (get_vector_resource new_client document_id) w').1 in
  tool = Returned
           (text_content
              (join nl
                 (["Document ID: " +:+ document_id; EmptyString]
                    ++ match md with
                       | [] => []
                       | _ :: _ => "Metadata:" :: metadata_lines md
                       end)))
  /\ resource = Returned match format_text_content vd with
                         | Returned s => s
                         | Raised e => json_dumps_error (str_exn e)
                         end
  /\ ((forall v, dict_get "text" md = Some v -> exists s, v = VStr s) ->
      format_text_content vd
      = Returned
          (join nl
             (match dict_get "title" md with
              | Some title => ["Title: " +:+ py_str title]
              | None => []
              end
                ++ ["ID: " +:+ document_id] ++ field_lines md ++ [EmptyString]
                ++ match dict_get "text" md with
                   | Some (VStr s) => [s]
                   | _ => []
                   end)))
  /\ (forall s t, format_text_content vd = Returned s -> tool = Returned t ->
        result_text t <> s).
Proof.
  intros Hf Hv Hn Hf' Hr vd tool resource.
  assert (Htool := read_document_found pinecone_client _ _ _ _ _ _ Hf Hv).
  fold tool in Htool.
  split; [exact Htool|].
  split; [exact (get_vector_resource_found new_client _ _ _ _ _ _ _ _ Hn Hf' Hr)|].
  split.
  - intros Htext. unfold format_text_content, join_with_text.
    change (default [] (vd_metadata vd)) with md.
    change (id_text vd) with document_id.
    destruct (dict_get "text" md) as [v|].
    + destruct (Htext v eq_refl) as [s ->].
      destruct (dict_get "title" md); cbn [app];
        now rewrite <- ?app_assoc.
    + destruct (dict_get "title" md); cbn [app];
        now rewrite ?app_nil_r.
  - intros s t Hs Ht. rewrite Htool in Ht. injection Ht as <-.
    destruct (format_text_content_head vd s Hs) as [r Hhead].
    destruct (join_head "D" ("ocument ID: " +:+ document_id)
                (EmptyString
                   :: match md with
                      | [] => []
                      | _ :: _ => "Metadata:" :: metadata_lines md
                      end)) as [r' Hr'].
    match goal with
    | |- ?x <> _ => assert (Hd : x = String "D" r') by exact Hr'
    end.
    rewrite Hd. destruct Hhead as [->| ->]; discriminate.
Qed.

Lemma read_document_and_resource_formats_witness :
  (@run demo _ (read_document_tool (demo_client doc1_index) "doc1" None) tt).1
  = Returned
      (text_content
         (join nl
            (["Document ID: " +:+ "doc1"; EmptyString]
               ++ "Metadata:" :: @metadata_lines demo doc1_metadata)))
  /\ (@run demo _ (get_vector_resource (demo_new_client doc1_index) "doc1") tt).1
     = Returned
         match @format_text_content demo
                 {| vd_id := Some "doc1"; vd_metadata := Some doc1_metadata |} with
         | Returned s => s
         | Raised e => @json_dumps_error demo (str_exn e)
         end.
Proof.
  refine ((fun P => conj (proj1 P) (proj1 (proj2 P)))
            (@read_document_and_resource_formats demo
               (demo_client doc1_index) (demo_new_client doc1_index)
               (demo_client doc1_index) "doc1" None doc1_metadata []
               doc1_index doc1_index tt tt tt tt tt
               eq_refl eq_refl eq_refl eq_refl eq_refl)).
Defined.

(** ** Failures at the boundary of a tool *)



Section BoundaryFacts.
Context `{Externals}.
Variable pinecone_client : PineconeClient.
Variable chunker : Chunker.





End BoundaryFacts.




Section LoggingFacts.
Context `{Externals}.
Variable pinecone_client : PineconeClient.
Variable chunker : Chunker.







End LoggingFacts.



(** * Further properties of the handlers *)

(** ** Strings *)

Lemma string_app_assoc (a b c : string) : (a +:+ b) +:+ c = a +:+ (b +:+ c).
Proof.
  induction a as [|x a IH]; [reflexivity|].
  change (String x ((a +:+ b) +:+ c) = String x (a +:+ (b +:+ c))).
  now rewrite IH.
Qed.

Lemma string_app_nil_r (a : string) : a +:+ EmptyString = a.
Proof.
  induction a as [|x a IH]; [reflexivity|].
  change (String x (a +:+ EmptyString) = String x a). now rewrite IH.
Qed.

Lemma string_app_length (a b : string) :
  String.length (a +:+ b) = (String.length a + String.length b)%nat.
Proof.
  induction a as [|x a IH]; [reflexivity|].
  change (S (String.length (a +:+ b)) = S (String.length a + String.length b)).
  now rewrite IH.
Qed.



(** ** semantic-search: the rendering *)

Section RenderingFacts.
Context `{Externals}.

(** A match whose text is a string, or is missing, is rendered. *)
Lemma strip_text_ok (m : search_match) (t : string) :
  match_text m = Some t ->
  strip_text (default [] (match_metadata m)) = Returned (py_strip t).
Proof.
  unfold match_text, strip_text.
  destruct (dict_get "text" _) as [[s| | |]|]; intros [= <-]; reflexivity.
Qed.

(** The loop appends one block per match, in order. *)
Lemma format_matches_ok (ms : list search_match) :
  forall i formatted_text,
    Forall (fun m => is_Some (match_text m)) ms ->
    format_matches i ms formatted_text
    = Returned (formatted_text +:+ match_blocks i ms).
Proof.
  induction ms as [|m ms IH]; intros i acc Hok.
  - cbn. now rewrite string_app_nil_r.
  - apply Forall_cons in Hok as [[t Ht] Hok].
    cbn [format_matches match_blocks]. rewrite (strip_text_ok m t Ht), Ht.
    rewrite (IH _ _ Hok). f_equal. unfold match_block. cbn [default from_option id].
    now rewrite !string_app_assoc.
Qed.

(** The loop stops at the first match whose text has no [strip]. *)
Lemma format_matches_bad (good : list search_match) :
  forall i formatted_text bad rest v,
    Forall (fun m => is_Some (match_text m)) good ->
    dict_get "text" (default [] (match_metadata bad)) = Some v ->
    (forall s, v <> VStr s) ->
    format_matches i (good ++ bad :: rest) formatted_text
    = Raised (Exn "AttributeError"
                ("'" +:+ type_name v +:+ "' object has no attribute 'strip'")).
Proof.
  induction good as [|m good IH]; intros i acc bad rest v Hok Hv Hns.
  - cbn [app format_matches]. unfold strip_text. rewrite Hv.
    destruct v; try reflexivity. now destruct (Hns s).
  - apply Forall_cons in Hok as [[t Ht] Hok].
    cbn [app format_matches]. rewrite (strip_text_ok m t Ht).
    now apply IH.
Qed.
End RenderingFacts.

(** X1. When the store answers and every match has a text that is a
    string (or no text), the result is the heading followed by one block
    per match, in the order of the answer and ranked from 1: the handler
    does not reorder the matches and does not cut them to [top_k].  The
    store is queried once and no error is logged. *)
Theorem search_renders_every_match_in_order `{Externals}
    (pinecone_client : PineconeClient) query top_k namespace category tags
    date_range (w w1 : World) (results : search_results) :
  search_records pinecone_client query top_k
    (build_filters category tags date_range) true namespace w
    = (Returned results, w1) ->
  Forall (fun m => is_Some (match_text m)) (default [] (matches results)) ->
  run (semantic_search_tool pinecone_client query top_k namespace category
         tags date_range) w
  = (Returned
       (text_content
          ("Retrieved Contexts:" +:+ nl +:+ nl
             +:+ match_blocks 1 (default [] (matches results)))),
     {| world := w1;
        trace := [CallSearch query top_k
                    (build_filters category tags date_range) true namespace
                    (Returned results)] |}).
Proof.
  intros Hs Hok.
  unfold run, semantic_search_tool, try_except, bind, call, lift, ret. cbn.
  rewrite Hs. cbn. rewrite (format_matches_ok _ _ _ Hok).
  now rewrite !string_app_assoc.
Qed.

Lemma search_renders_every_match_in_order_witness :
  (@run demo _
     (semantic_search_tool (answering_client [alpha_match; bare_match])
        "vector search" 1 None None None None) tt).1
  = Returned
      (text_content
         ("Retrieved Contexts:" +:+ nl +:+ nl
            +:+ @match_blocks demo 1 [alpha_match; bare_match])).
Proof.
  refine (f_equal fst
            (@search_renders_every_match_in_order demo
               (answering_client [alpha_match; bare_match])
               "vector search" 1 None None None None tt tt
               (@Build_search_results demo (Some [alpha_match; bare_match]))
               eq_refl _)).
  repeat constructor; eexists; reflexivity.
Defined.

(** X2. When the store answers with a match whose text is not a string,
    the whole search is lost: the result is the error of the first such
    match, [Error: '<type>' object has no attribute 'strip'], and none of
    the matches before it is returned. *)
Theorem search_fails_on_a_text_that_is_not_a_string `{Externals}
    (pinecone_client : PineconeClient) query top_k namespace category tags
    date_range (w w1 : World) (results : search_results)
    (good rest : list search_match) (bad : search_match) (v : value) :
  search_records pinecone_client query top_k
    (build_filters category tags date_range) true namespace w
    = (Returned results, w1) ->
  matches results = Some (good ++ bad :: rest) ->
  Forall (fun m => is_Some (match_text m)) good ->
  dict_get "text" (default [] (match_metadata bad)) = Some v ->
  (forall s, v <> VStr s) ->
  let msg := "'" +:+ type_name v +:+ "' object has no attribute 'strip'" in
  run (semantic_search_tool pinecone_client query top_k namespace category
         tags date_range) w
  = (Returned (text_content ("Error: " +:+ msg)),
     {| world := w1;
        trace := [CallSearch query top_k
                    (build_filters category tags date_range) true namespace
                    (Returned results);
                  LogError ("Error in semantic search: " +:+ msg)] |}).
Proof.
  intros Hs Hm Hok Hv Hns msg.
  unfold run, semantic_search_tool, try_except, bind, call, lift, ret. cbn.
  rewrite Hs. cbn. rewrite Hm. cbn [default from_option id].
  now rewrite (format_matches_bad good _ _ bad rest v Hok Hv Hns).
Qed.

Lemma search_fails_on_a_text_that_is_not_a_string_witness :
  (@run demo _
     (semantic_search_tool (answering_client [alpha_match; numbered_match])
        "vector search" 10 None None None None) tt).1
  = Returned (text_content "Error: 'int' object has no attribute 'strip'").
Proof.
  refine (f_equal fst
            (@search_fails_on_a_text_that_is_not_a_string demo
               (answering_client [alpha_match; numbered_match])
               "vector search" 10 None None None None tt tt
               (@Build_search_results demo (Some [alpha_match; numbered_match]))
               [alpha_match] [] numbered_match (VInt 7)
               eq_refl eq_refl _ eq_refl _)).
  - repeat constructor; eexists; reflexivity.
  - discriminate.
Defined.

(** ** The tools that read *)

Section ReadOnlyFacts.
Context `{Externals}.
Variable pinecone_client : PineconeClient.
Variable chunker : Chunker.

Lemma semantic_search_reads query top_k namespace category tags date_range w :
  one_call_no_write (semantic_search_tool pinecone_client query top_k namespace
                       category tags date_range) w.
Proof.
  unfold one_call_no_write, run, semantic_search_tool, try_except, bind, call,
    lift, ret.
  cbn.
  destruct (search_records _ _ _ _ _ _ _) as [[results|e] w1]; cbn;
    [destruct (format_matches _ _ _); cbn|]; auto.
Qed.

Lemma read_document_reads document_id namespace w :
  one_call_no_write (read_document_tool pinecone_client document_id namespace) w.
Proof.
  unfold one_call_no_write, run, read_document_tool, try_except, bind, call, ret.
  cbn.
  destruct (fetch_records _ _ _ _) as [[resp|e] w1]; cbn;
    [destruct (dict_get document_id (vectors resp)); cbn|]; auto.
Qed.

Lemma list_documents_reads namespace w :
  one_call_no_write (list_documents_tool pinecone_client namespace) w.
Proof.
  unfold one_call_no_write, run, list_documents_tool, try_except, bind, call,
    lift, ret.
  cbn.
  destruct (list_records _ _ _) as [[s|e] w1]; cbn;
    [destruct (json_dumps s); cbn|]; auto.
Qed.

Lemma pinecone_stats_reads w :
  one_call_no_write (pinecone_stats_tool pinecone_client) w.
Proof.
  unfold one_call_no_write, run, pinecone_stats_tool, try_except, bind, call,
    lift, ret.
  cbn.
  destruct (stats _ _) as [[s|e] w1]; cbn;
    [destruct (json_dumps s); cbn|]; auto.
Qed.
End ReadOnlyFacts.

(** X3. semantic-search, read-document, list-documents and pinecone-stats
    only read: whatever their arguments and whatever the client does, a
    call makes exactly one call to the client, embeds nothing and upserts
    nothing. *)
Theorem reading_tools_never_write `{Externals}
    (pinecone_client : PineconeClient) (chunker : Chunker) (c : tool_call)
    (w : World) :
  reads_only c = true ->
  let tr := trace (run (invoke pinecone_client chunker c) w).2 in
  List.length (List.filter is_call tr) = 1%nat
  /\ embed_calls tr = [] /\ upsert_calls tr = [].
Proof.
  destruct c; cbn [reads_only invoke]; intros Hc; try discriminate Hc.
  - apply semantic_search_reads.
  - apply read_document_reads.
  - apply list_documents_reads.
  - apply pinecone_stats_reads.
Qed.

Lemma reading_tools_never_write_witness :
  let tr := trace (@run demo _
                     (invoke failing_client (demo_chunker [])
                        (SEMANTIC_SEARCH "vector search" 10 None None None None))
                     tt).2 in
  List.length (List.filter is_call tr) = 1%nat
  /\ embed_calls tr = [] /\ upsert_calls tr = [].
Proof.
  apply (@reading_tools_never_write demo failing_client (demo_chunker [])
           (SEMANTIC_SEARCH "vector search" 10 None None None None) tt).
  reflexivity.
Defined.

(** X4. read-document of an identifier that the fetch does not return
    gives the text [Document <id> not found]: a plain result, with no error
    logged, after one fetch of that identifier in the given namespace. *)
Theorem read_document_not_found `{Externals} (pinecone_client : PineconeClient)
    document_id namespace (w w1 : World) (resp : fetch_response) :
  fetch_records pinecone_client [document_id] namespace w = (Returned resp, w1) ->
  dict_get document_id (vectors resp) = None ->
  run (read_document_tool pinecone_client document_id namespace) w
  = (Returned (text_content ("Document " +:+ document_id +:+ " not found")),
     {| world := w1;
        trace := [CallFetch [document_id] namespace (Returned resp)] |}).
Proof.
  intros Hf Hv. unfold run, read_document_tool, try_except, bind, call, ret.
  cbn. rewrite Hf. cbn. now rewrite Hv.
Qed.

Lemma read_document_not_found_witness :
  (@run demo _ (read_document_tool (demo_client doc1_index) "doc2" (Some "notes"))
     tt).1
  = Returned (text_content "Document doc2 not found").
Proof.
  exact (f_equal fst
           (@read_document_not_found demo (demo_client doc1_index) "doc2"
              (Some "notes") tt tt doc1_index eq_refl eq_refl)).
Defined.

(** ** process-document: what is written, and when *)

Section WritingFacts.
Context `{Externals}.

(** A loop that ends with an exception has embedded the surviving chunks
    up to the one whose embedding raised, and none after it. *)
Lemma embed_run_stops_at_failure chunks acc evs e :
  embed_run chunks acc evs (Raised e) ->
  exists pre c,
    embed_calls evs = pre ++ [(chunk_content c, Raised e)]
    /\ Forall (fun p => exists x, p.2 = Returned x) pre
    /\ surviving chunks !! List.length pre = Some c.
Proof.
  unfold surviving.
  remember (Raised e) as r eqn:Hr. intros Hrun. revert Hr.
  induction Hrun as [acc|c cs acc evs r Hc _ IH|c cs acc x evs r Hc _ IH|c cs acc e' Hc];
    intros Hr.
  - discriminate Hr.
  - destruct (IH Hr) as (pre & c' & Hcalls & Hpre & Hat).
    exists pre, c'. cbn [List.filter]. rewrite Hc. auto.
  - destruct (IH Hr) as (pre & c' & Hcalls & Hpre & Hat).
    exists ((chunk_content c, Returned x) :: pre), c'.
    cbn [List.filter]. rewrite Hc. repeat split.
    + change (embed_calls (CallEmbed (chunk_content c) (Returned x) :: evs))
        with ((chunk_content c, Returned x) :: embed_calls evs).
      now rewrite Hcalls.
    + constructor; [now exists x|assumption].
    + exact Hat.
  - injection Hr as ->. exists [], c. cbn [List.filter]. rewrite Hc.
    repeat split. constructor.
Qed.

(** The fields of the records of a batch are those of the chunks and the
    embeddings it was made from. *)
Lemma batch_fields (cs : list Chunk) (xs : list Embedding) :
  List.length xs = List.length cs ->
  record_text <$> zip_with make_record cs xs = chunk_content <$> cs
  /\ record_metadata <$> zip_with make_record cs xs = chunk_metadata <$> cs
  /\ record_embedding <$> zip_with make_record cs xs = xs.
Proof.
  revert xs. induction cs as [|c cs IH]; intros [|x xs] Hlen;
    try discriminate; [repeat split|].
  destruct (IH xs) as (Ht & Hm & He); [now injection Hlen|].
  cbn. rewrite Ht, Hm, He. repeat split.
Qed.
End WritingFacts.

(** X5. In every run of process-document, whatever the chunker and the
    client do, upsert is called at most once, never with an empty batch,
    and with the namespace the tool was given; the store is never
    queried. *)
Theorem ingestion_upserts_at_most_once `{Externals}
    (pinecone_client : PineconeClient) (chunker : Chunker)
    document_id text metadata namespace (w : World) :
  let tr := trace (run (process_document_tool pinecone_client chunker
                          document_id text metadata namespace) w).2 in
  (upsert_calls tr = []
   \/ exists batch, batch <> [] /\ upsert_calls tr = [(batch, namespace)])
  /\ search_calls tr = [].
Proof.
  cbn zeta.
  destruct (chunker document_id text metadata w) as [[chunks|e] w1] eqn:Hch.
  - destruct (process_document_run pinecone_client chunker _ _ _ namespace _ _ _ Hch)
      as (evs & r & res & tail & st & Hrun & Hend & Hout & Htr).
    destruct (ingestion_views document_id text metadata namespace _ _ _ _ _ Hrun Hend)
      as (_ & _ & _ & Huc).
    rewrite Hout. cbn [snd]. rewrite Htr, Huc. split.
    + destruct r as [[|b bs]|e]; auto. right. now exists (b :: bs).
    + destruct (embed_run_no_other_call _ _ _ _ Hrun) as [_ Hsc].
      unfold search_calls in *. cbn [omap list_omap]. rewrite omap_app, Hsc.
      now destruct Hend.
  - rewrite (process_document_chunker_raised pinecone_client chunker _ _ _
               namespace _ _ _ Hch).
    cbn. auto.
Qed.

(** X6. In an ingestion, when a call to the embedding client raises, it is
    the last one: the surviving chunks before it were embedded, in order,
    the chunk it was made for is the next surviving chunk, the chunks after
    it are never sent, and nothing is upserted. *)
Theorem ingestion_stops_at_the_first_failed_embedding `{Externals}
    (pinecone_client : PineconeClient) (chunker : Chunker)
    document_id text metadata namespace (w w1 : World) chunks t e :
  chunker document_id text metadata w = (Returned chunks, w1) ->
  let tr := trace (run (process_document_tool pinecone_client chunker
                          document_id text metadata namespace) w).2 in
  (t, Raised e) ∈ embed_calls tr ->
  exists pre c,
    embed_calls tr = pre ++ [(chunk_content c, Raised e)]
    /\ Forall (fun p => exists x, p.2 = Returned x) pre
    /\ pre.*1 = chunk_content <$> take (List.length pre) (surviving chunks)
    /\ surviving chunks !! List.length pre = Some c
    /\ upsert_calls tr = [].
Proof.
  intros Hch tr. subst tr.
  destruct (process_document_run pinecone_client chunker _ _ _ namespace _ _ _ Hch)
    as (evs & r & res & tail & st & Hrun & Hend & Hout & Htr).
  destruct (ingestion_views document_id text metadata namespace _ _ _ _ _ Hrun Hend)
    as (Hec & _ & _ & Huc).
  rewrite Hout. cbn [snd]. rewrite Htr, Hec, Huc. intros Hin.
  apply embed_call_in_trace in Hin.
  pose proof (embed_run_call_raised _ _ _ _ _ e Hrun Hin eq_refl) as ->.
  destruct (embed_run_stops_at_failure _ _ _ _ Hrun) as (pre & c & Hcalls & Hpre & Hat).
  exists pre, c. repeat split; try assumption.
  pose proof (embed_run_prefix _ _ _ _ Hrun) as [k Hk].
  rewrite Hcalls, fmap_app in Hk.
  rewrite <- (take_drop (List.length pre) (surviving chunks)), fmap_app,
    <- app_assoc in Hk.
  apply app_inj_1 in Hk as [Hk _]; [exact (eq_sym Hk)|].
  rewrite !length_fmap, length_take.
  apply lookup_lt_Some in Hat. lia.
Qed.

(** X7. When the chunker raises, the ingestion returns its error as text;
    nothing is embedded and nothing is upserted. *)
Theorem ingestion_stops_when_the_chunker_fails `{Externals}
    (pinecone_client : PineconeClient) (chunker : Chunker)
    document_id text metadata namespace (w w1 : World) e :
  chunker document_id text metadata w = (Raised e, w1) ->
  let out := run (process_document_tool pinecone_client chunker document_id
                    text metadata namespace) w in
  out.1 = Returned (text_content ("Error: " +:+ str_exn e))
  /\ embed_calls (trace out.2) = []
  /\ upsert_calls (trace out.2) = []
  /\ List.length (List.filter is_call (trace out.2)) = 1%nat.
Proof.
  intros Hch out. subst out.
  rewrite (process_document_chunker_raised pinecone_client chunker _ _ _
             namespace _ _ _ Hch).
  cbn. auto.
Qed.

(** X8. Whenever process-document calls upsert, the batch is complete: it
    has one record for every surviving chunk, in order, each with the
    identifier, the content and the metadata of its chunk and with the
    embedding returned for that content.  The metadata passed to the tool
    reaches the records through the chunker only. *)
Theorem upserted_batch_is_complete `{Externals}
    (pinecone_client : PineconeClient) (chunker : Chunker)
    document_id text metadata namespace (w w1 : World) chunks batch ns :
  chunker document_id text metadata w = (Returned chunks, w1) ->
  let tr := trace (run (process_document_tool pinecone_client chunker
                          document_id text metadata namespace) w).2 in
  (batch, ns) ∈ upsert_calls tr ->
  ns = namespace
  /\ record_id <$> batch = chunk_id <$> surviving chunks
  /\ record_text <$> batch = chunk_content <$> surviving chunks
  /\ record_metadata <$> batch = chunk_metadata <$> surviving chunks
  /\ record_embedding <$> batch = embeddings tr.
Proof.
  intros Hch tr. subst tr.
  destruct (process_document_run pinecone_client chunker _ _ _ namespace _ _ _ Hch)
    as (evs & r & res & tail & st & Hrun & Hend & Hout & Htr).
  destruct (ingestion_views document_id text metadata namespace _ _ _ _ _ Hrun Hend)
    as (_ & Hem & _ & Huc).
  rewrite Hout. cbn [snd]. rewrite Htr, Hem, Huc. intros Hin.
  destruct r as [[|b bs]|e]; try (now inversion Hin).
  apply list_elem_of_singleton in Hin. injection Hin as -> ->.
  destruct (embed_run_returned _ _ _ _ Hrun) as (_ & _ & _ & Hlen & Hb).
  cbn [app] in Hb. rewrite Hb.
  destruct (batch_fields (surviving chunks) (embeddings evs) Hlen) as (Ht & Hm & He).
  rewrite (record_ids_of_batch _ _ Hlen). auto.
Qed.

Lemma ingestion_stops_at_the_first_failed_embedding_witness :
  let tr := trace (@run demo _
                     (process_document_tool picky_client
                        (demo_chunker [alpha_chunk; blank_chunk; beta_chunk;
                                       gamma_chunk])
                        "doc1" "alpha beta gamma" [] None) tt).2 in
  exists pre c,
    embed_calls tr = pre ++ [(chunk_content c, Raised service_down)]
    /\ Forall (fun p => exists x, p.2 = Returned x) pre
    /\ pre.*1
       = chunk_content
           <$> take (List.length pre)
                 (surviving [alpha_chunk; blank_chunk; beta_chunk; gamma_chunk])
    /\ surviving [alpha_chunk; blank_chunk; beta_chunk; gamma_chunk]
         !! List.length pre = Some c
    /\ upsert_calls tr = [].
Proof.
  apply (@ingestion_stops_at_the_first_failed_embedding demo picky_client
           (demo_chunker [alpha_chunk; blank_chunk; beta_chunk; gamma_chunk])
           "doc1" "alpha beta gamma" [] None tt tt
           [alpha_chunk; blank_chunk; beta_chunk; gamma_chunk]
           "beta" service_down eq_refl).
  cbn. apply list_elem_of_In. cbn. auto.
Defined.

Lemma ingestion_stops_when_the_chunker_fails_witness :
  let out := @run demo _
               (process_document_tool (demo_client empty_index) broken_chunker
                  "doc1" "alpha" [] None) tt in
  out.1 = Returned (text_content "Error: Unknown chunk type: smart")
  /\ embed_calls (trace out.2) = []
  /\ upsert_calls (trace out.2) = []
  /\ List.length (List.filter is_call (trace out.2)) = 1%nat.
Proof.
  apply (@ingestion_stops_when_the_chunker_fails demo (demo_client empty_index)
           broken_chunker "doc1" "alpha" [] None tt tt
           (Exn "ValueError" "Unknown chunk type: smart")).
  reflexivity.
Defined.

Lemma upserted_batch_is_complete_witness :
  let batch := [@make_record demo alpha_chunk [0]; @make_record demo beta_chunk [0]] in
  record_id <$> batch = ["doc1-1"; "doc1-2"]
  /\ record_text <$> batch = ["alpha"; "beta"].
Proof.
  intros batch.
  refine ((fun P => conj (proj1 (proj2 P)) (proj1 (proj2 (proj2 P))))
            (@upserted_batch_is_complete demo (demo_client empty_index)
               (demo_chunker [alpha_chunk; blank_chunk; beta_chunk])
               "doc1" "alpha beta" [("author", VStr "me")] None tt tt
               [alpha_chunk; blank_chunk; beta_chunk] batch None eq_refl _)).
  cbn. apply list_elem_of_In. cbn. auto.
Defined.

(** ** The vector resource *)



(** X10. [format_text_content] gives a text exactly for the records whose
    stored text is a string or is missing.  For a text of another type it
    raises the [TypeError] of [join], which names the position of the
    text among the lines: after the title line if there is one, the id
    line, the lines of the other fields and the blank line. *)
Theorem format_text_content_needs_a_string_text `{Externals} (vd : vector_data) :
  let md := default [] (vd_metadata vd) in
  match dict_get "text" md with
  | Some (VStr _) | None => exists s, format_text_content vd = Returned s
  | Some v =>
      format_text_content vd
      = Raised
          (Exn "TypeError"
             ("sequence item "
                +:+ pretty ((if dict_has "title" md then 1 else 0)
                            + 1 + List.length (field_lines md) + 1)%nat
                +:+ ": expected str instance, " +:+ type_name v +:+ " found"))
  end.
Proof.
  cbn zeta. unfold format_text_content, join_with_text, dict_has.
  set (md := default [] (vd_metadata vd)).
  destruct (dict_get "text" md) as [[s| | |]|]; eauto;
    destruct (dict_get "title" md); cbn [app];
    repeat first [rewrite length_app | rewrite length_cons | rewrite length_nil];
    do 4 f_equal; lia.
Qed.

(** ** The listing of vectors *)

Section ListingFacts.
Context `{Externals}.
Variable new_client : World -> outcome PineconeClient * World.
Variable listed_vectors : Json -> option (list listed_record).
Variable json_dumps_resources : list resource_summary -> string.

Lemma summarize_ok (record : listed_record) (d : string) :
  describe (default [] (listed_metadata record)) = Returned d ->
  exists s, summarize record = Returned s /\ summary_of record s.
Proof.
  intros Hd. unfold summarize. rewrite Hd. eexists. split; [reflexivity|].
  unfold summary_of. cbn. auto.
Qed.


(** The loop stops at the first record that cannot be described. *)
Lemma summarize_all_bad (good : list listed_record) :
  forall resources bad rest e,
    Forall (fun r => exists d, describe (default [] (listed_metadata r)) = Returned d)
      good ->
    describe (default [] (listed_metadata bad)) = Raised e ->
    summarize_all (good ++ bad :: rest) resources = Raised e.
Proof.
  induction good as [|r good IH]; intros acc bad rest e Hok Hbad.
  - cbn [app summarize_all]. unfold summarize. now rewrite Hbad.
  - apply Forall_cons in Hok as [[d Hd] Hok].
    destruct (summarize_ok r d Hd) as (s & Hs & _).
    cbn [app summarize_all]. rewrite Hs. now apply IH.
Qed.

(** A run of the listing once the client is there and has listed. *)
Lemma list_vectors_run (w w1 w2 : World) pinecone_client records :
  new_client w = (Returned pinecone_client, w1) ->
  list_records pinecone_client None w1 = (Returned records, w2) ->
  (run (list_vectors_resource new_client listed_vectors json_dumps_resources) w).1
  = Returned
      match summarize_all (default [] (listed_vectors records)) [] with
      | Returned rs => json_dumps_resources rs
      | Raised e => json_dumps_error (str_exn e)
      end.
Proof.
  intros Hn Hl.
  unfold run, list_vectors_resource, try_except, bind, call, construct_client,
    lift, ret.
  cbn. rewrite Hn. cbn. rewrite Hl. cbn.
  now destruct (summarize_all _ _).
Qed.
End ListingFacts.





(** X13. One listed record whose text is truthy and not a string loses
    the whole listing: the resource returns the JSON error of the first
    such record and none of the summaries. *)
Theorem listing_fails_on_a_text_that_is_not_a_string `{Externals}
    (new_client : World -> outcome PineconeClient * World)
    (listed_vectors : Json -> option (list listed_record))
    (json_dumps_resources : list resource_summary -> string)
    (w w1 w2 : World) pinecone_client records good bad rest v :
  new_client w = (Returned pinecone_client, w1) ->
  list_records pinecone_client None w1 = (Returned records, w2) ->
  listed_vectors records = Some (good ++ bad :: rest) ->
  Forall (fun r => exists d, describe (default [] (listed_metadata r)) = Returned d)
    good ->
  dict_get "text" (default [] (listed_metadata bad)) = Some v ->
  py_truthy v = true ->
  (forall s, v <> VStr s) ->
  exists msg,
    (run (list_vectors_resource new_client listed_vectors json_dumps_resources) w).1
    = Returned (json_dumps_error msg)
    /\ describe (default [] (listed_metadata bad)) = Raised (Exn "TypeError" msg).
Proof.
  intros Hn Hl Hv Hok Ht Htruthy Hns.
  assert (Hbad : exists msg,
             describe (default [] (listed_metadata bad))
             = Raised (Exn "TypeError" msg)).
  { unfold describe. rewrite Ht, Htruthy.
    destruct v as [s| | |]; eauto. now destruct (Hns s). }
  destruct Hbad as [msg Hbad]. exists msg. split; [|exact Hbad].
  rewrite (list_vectors_run _ _ _ _ _ _ _ _ Hn Hl), Hv.
  cbn [default from_option id].
  now rewrite (summarize_all_bad good [] bad rest _ Hok Hbad).
Qed.

Lemma listing_fails_on_a_text_that_is_not_a_string_witness :
  exists msg,
    (@run demo _
       (list_vectors_resource (demo_new_client empty_index)
          (demo_listed [long_note; numbered_record; bare_record]) demo_dumps)
       tt).1
    = Returned (@json_dumps_error demo msg)
    /\ describe (default [] (listed_metadata numbered_record))
       = Raised (Exn "TypeError" msg).
Proof.
  apply (@listing_fails_on_a_text_that_is_not_a_string demo
           (demo_new_client empty_index)
           (demo_listed [long_note; numbered_record; bare_record]) demo_dumps
           tt tt tt (demo_client empty_index) "{}"
           [long_note] numbered_record [bare_record] (VInt 7)
           eq_refl eq_refl eq_refl).
  - repeat constructor; eexists; reflexivity.
  - reflexivity.
  - reflexivity.
  - discriminate.
Defined.

(** ** The prompts *)

Lemma string_app_inj_r (a b s : string) : a +:+ s = b +:+ s -> a = b.
Proof.
  revert b. induction a as [|x a IH]; intros [|y b] Heq.
  - reflexivity.
  - apply (f_equal String.length) in Heq.
    rewrite !string_app_length in Heq. cbn [String.length] in Heq. lia.
  - apply (f_equal String.length) in Heq.
    rewrite !string_app_length in Heq. cbn [String.length] in Heq. lia.
  - change (String x (a +:+ s) = String y (b +:+ s)) in Heq.
    injection Heq as -> Heq. f_equal. now apply IH.
Qed.

(** X14. The query prompt rejects the empty query by raising
    [ValueError("Query required")] to its caller.  For any other query it
    returns two user messages, the second of which carries the query word
    for word, so that two queries that give the same prompt are the same
    query. *)
Theorem query_prompt_requires_and_carries_the_query (query query' : string) :
  (query = EmptyString ->
   pinecone_query_prompt query = Raised (Exn "ValueError" "Query required"))
  /\ (query <> EmptyString ->
      exists first,
        pinecone_query_prompt query
        = Returned
            [user_message first;
             user_message ("Do a semantic search for the query: " +:+ query
                             +:+ " with the chosen namespace")])
  /\ (query <> EmptyString ->
      pinecone_query_prompt query = pinecone_query_prompt query' ->
      query = query').
Proof.
  unfold pinecone_query_prompt. repeat split.
  - now intros ->.
  - intros Hq. destruct (String.eqb_spec query EmptyString); [contradiction|].
    eauto.
  - intros Hq.
    destruct (String.eqb_spec query EmptyString); [contradiction|].
    destruct (String.eqb_spec query' EmptyString); [discriminate|].
    intros [= Heq]. apply String.app_inj in Heq.
    now apply string_app_inj_r in Heq.
Qed.

Lemma query_prompt_requires_and_carries_the_query_witness :
  exists first,
    pinecone_query_prompt "vector search"
    = Returned
        [user_message first;
         user_message
           "Do a semantic search for the query: vector search with the chosen namespace"].
Proof.
  apply (proj1 (proj2 (query_prompt_requires_and_carries_the_query
                         "vector search" "vector search"))).
  discriminate.
Defined.

(** X15. The store prompt rejects empty content by raising
    [ValueError("Content required")].  For any other content it returns
    three user messages, the last of which carries the content word for
    word.  A namespace that is missing or empty is announced as
    [not specified] in the first message, while the last message writes
    the namespace as it is: [None] when it is missing. *)
Theorem store_prompt_requires_content `{Externals} (now content : string)
    (namespace : option string) :
  (content = EmptyString ->
   pinecone_store_prompt now content namespace
   = Raised (Exn "ValueError" "Content required"))
  /\ (content <> EmptyString ->
      exists m1 m2 m3,
        pinecone_store_prompt now content namespace
        = Returned [user_message m1; user_message m2; user_message m3]
        /\ (namespace = None \/ namespace = Some EmptyString ->
            m1 = "The namespace is not specified. " +:+ nl
                   +:+ "If the namespace is not specified, use pinecone-stats to find an appropriate namespace or use the default namespace.")
        /\ m3 = "Run the process-document tool with the content: " +:+ content
                  +:+ " " +:+ nl
                  +:+ "Include generated metadata in the document. " +:+ nl
                  +:+ "Store in the "
                  +:+ match namespace with Some n => n | None => "None" end
                  +:+ " if specified").
Proof.
  unfold pinecone_store_prompt. split.
  - now intros ->.
  - intros Hc. destruct (String.eqb_spec content EmptyString); [contradiction|].
    eexists _, _, _. split; [reflexivity|]. split; [|reflexivity].
    intros [-> | ->]; reflexivity.
Qed.

Lemma store_prompt_requires_content_witness :
  exists m1 m2 m3,
    @pinecone_store_prompt demo "2024-05-01T10:00:00" "a note" None
    = Returned [user_message m1; user_message m2; user_message m3]
    /\ (@None string = None \/ None = Some EmptyString ->
        m1 = "The namespace is not specified. " +:+ nl
               +:+ "If the namespace is not specified, use pinecone-stats to find an appropriate namespace or use the default namespace.")
    /\ m3 = "Run the process-document tool with the content: " +:+ "a note"
              +:+ " " +:+ nl
              +:+ "Include generated metadata in the document. " +:+ nl
              +:+ "Store in the " +:+ "None" +:+ " if specified".
Proof.
  apply (proj2 (@store_prompt_requires_content demo "2024-05-01T10:00:00"
                  "a note" None)).
  discriminate.
Defined.
